(** * Citadel-Agent terminal front-ends: screens, commands and bars

    A shallow embedding of the two command-line front-ends of the
    repository,

      - [citadel_cli.py]           (class [CitadelTerminal], module [Basic]),
      - [citadel_advanced_cli.py]  (class [CitadelCLI], module [Advanced]),

    as reactive machines: a configuration is the point where a screen
    method blocks on a read, together with the chain of callers that are
    suspended below it; one step hands the machine the line that was
    read and yields the next configuration and what was written.

    Conventions.
      - A Python [str] is a Rocq [string] holding its UTF-8 encoding;
        [py_len] counts code points, as [len] and the format
        specifications [:<n], [:>n], [:^n] do.
      - [str.lower] and [str.strip] are built-ins of the interpreter and
        not part of the repository: the machines take them as the
        methods of the class [PyStr]; [ascii_str] is the instance that
        agrees with Python on ASCII text.
      - The advanced front-end prints through the library [rich], which
        reads what it is handed as console markup and raises
        [MarkupError] when the tags do not match.  Whether it does is
        the method of the class [Rich]; [rich_tags] is an instance that
        follows the library's scanner and its stack of open tags.  The
        fields of the object are taken to hold text [rich] renders, as
        those [__init__] sets do.
      - The environment delivers complete lines.  Interrupts and a closed
        input stream are outside the model.
      - The chain of callers is kept whole: the interpreter's recursion
        limit is a property of configurations ([depth]), not a transition
        of the machines. *)

From Stdlib Require Import String Ascii List ZArith Lia Bool.
From Stdlib Require DecimalString HexadecimalString.
Import ListNotations.

Local Open Scope string_scope.
Local Open Scope Z_scope.

(** ** Python strings *)

(** [s * n]: the empty string when [n <= 0]. *)
Fixpoint str_rep (s : string) (n : nat) : string :=
  match n with
  | O => EmptyString
  | S k => s ++ str_rep s k
  end.

Definition str_mul (s : string) (n : Z) : string := str_rep s (Z.to_nat n).

(** Continuation bytes of UTF-8 are those of the form [10xxxxxx]. *)
Definition is_continuation (c : ascii) : bool :=
  let n := nat_of_ascii c in (128 <=? n)%nat && (n <? 192)%nat.

Definition starts_with_continuation (s : string) : bool :=
  match s with
  | EmptyString => false
  | String c _ => is_continuation c
  end.

(** The code points of a string, each as the string of its bytes. *)
Fixpoint glyphs (s : string) : list string :=
  match s with
  | EmptyString => []
  | String c r =>
      match glyphs r with
      | g :: gs =>
          if starts_with_continuation g
          then String c g :: gs
          else String c EmptyString :: g :: gs
      | [] => [String c EmptyString]
      end
  end.

(** [len(s)]. *)
Definition py_len (s : string) : nat := List.length (glyphs s).

(** How many code points of [s] are the glyph [g]. *)
Definition count_glyph (g s : string) : nat :=
  List.length (filter (String.eqb g) (glyphs s)).

Definition spaces (n : nat) : string := str_rep " " n.

(** [f"{s:<w}"], [f"{s:>w}"] and [f"{s:^w}"]: pad with spaces up to [w]
    code points; centring puts the smaller half on the left. *)
Definition fmt_left (w : nat) (s : string) : string :=
  s ++ spaces (w - py_len s).

Definition fmt_right (w : nat) (s : string) : string :=
  spaces (w - py_len s) ++ s.

Definition fmt_center (w : nat) (s : string) : string :=
  let pad := (w - py_len s)%nat in
  let l := Nat.div pad 2 in
  spaces l ++ s ++ spaces (pad - l).

(** [str(n)] of an [int]. *)
Definition str_of_int (n : Z) : string :=
  DecimalString.NilZero.string_of_int (Z.to_int n).

Definition ascii_upper_char (c : ascii) : ascii :=
  let n := nat_of_ascii c in
  if (97 <=? n)%nat && (n <=? 122)%nat then ascii_of_nat (n - 32) else c.

Definition ascii_lower_char (c : ascii) : ascii :=
  let n := nat_of_ascii c in
  if (65 <=? n)%nat && (n <=? 90)%nat then ascii_of_nat (n + 32) else c.

Fixpoint map_string (f : ascii -> ascii) (s : string) : string :=
  match s with
  | EmptyString => EmptyString
  | String c r => String (f c) (map_string f r)
  end.

(** [f"{n:X}"] of a non-negative [int]. *)
Definition hex_upper (n : Z) : string :=
  map_string ascii_upper_char
    (HexadecimalString.NilZero.string_of_int (Z.to_hex_int n)).

(** [str(x)] of a field that holds [None] or a string. *)
Definition str_of_field (x : option string) : string :=
  match x with
  | Some s => s
  | None => "None"
  end.

(** [x in [a, b, ...]] on strings. *)
Definition str_in (x : string) (l : list string) : bool :=
  existsb (String.eqb x) l.

(** The built-in string methods the source calls on input lines. *)
Class PyStr := {
  lower : string -> string;   (* str.lower *)
  strip : string -> string    (* str.strip *)
}.

Definition ascii_lower (s : string) : string := map_string ascii_lower_char s.

(** ASCII white space as [str.isspace] has it: tab to carriage return,
    the four separators and the space. *)
Definition is_space (c : ascii) : bool :=
  let n := nat_of_ascii c in
  ((9 <=? n)%nat && (n <=? 13)%nat) || ((28 <=? n)%nat && (n <=? 32)%nat).

Fixpoint lstrip (s : string) : string :=
  match s with
  | EmptyString => EmptyString
  | String c r => if is_space c then lstrip r else s
  end.

Fixpoint rstrip (s : string) : string :=
  match s with
  | EmptyString => EmptyString
  | String c r =>
      match rstrip r with
      | EmptyString => if is_space c then EmptyString else String c EmptyString
      | r' => String c r'
      end
  end.

Definition ascii_strip (s : string) : string := rstrip (lstrip s).

#[global] Instance ascii_str : PyStr :=
  {| lower := ascii_lower; strip := ascii_strip |}.

(** ** Console markup *)

(** What the source relies on [rich] for when it prints a string:
    [markup_error s] holds when rendering [s] as console markup raises
    [MarkupError]. *)
Class Rich := {
  markup_error : string -> bool
}.

(** A character that can follow the bracket of a tag: [a-z#/@]. *)
Definition opens_tag (c : ascii) : bool :=
  let n := nat_of_ascii c in
  ((97 <=? n)%nat && (n <=? 122)%nat)
  || (n =? 35)%nat || (n =? 47)%nat || (n =? 64)%nat.

(** The text of the tag whose bracket has just been read: what comes
    before the first closing bracket, when no opening bracket comes
    before it. *)
Fixpoint tag_text (s : string) : option string :=
  match s with
  | EmptyString => None
  | String c r =>
      if Ascii.eqb c "]" then Some EmptyString
      else if Ascii.eqb c "[" then None
      else option_map (String c) (tag_text r)
  end.

(** The name of a tag: its text before the first equals sign. *)
Fixpoint tag_name (text : string) : string :=
  match text with
  | EmptyString => EmptyString
  | String c r => if Ascii.eqb c "=" then EmptyString else String c (tag_name r)
  end.

(** The open tags without the nearest one called [name], if there is
    one. *)
Fixpoint pop_style (name : string) (stack : list string)
  : option (list string) :=
  match stack with
  | [] => None
  | top :: below =>
      if String.eqb top name then Some below
      else option_map (cons top) (pop_style name below)
  end.

(** One tag against the stack of open tags: the stack after it, or
    [None] for a closing tag that closes nothing.  Names are compared
    stripped and lowered, which is what [Style.normalize] makes of a
    name that is one word. *)
Definition apply_tag (text : string) (stack : list string)
  : option (list string) :=
  match tag_name text with
  | String "/" closed =>
      match ascii_strip closed with
      | EmptyString =>
          match stack with
          | [] => None
          | _ :: below => Some below
          end
      | style_name => pop_style (ascii_lower style_name) stack
      end
  | name => Some (ascii_lower (ascii_strip name) :: stack)
  end.

(** The scan of [rich.markup.render]: [skip] characters belong to the
    tag just read, [escapes] backslashes stand before the character in
    hand, and an odd number of them makes a tag plain text.  The result
    tells whether a closing tag failed. *)
Fixpoint scan_markup (s : string) (skip escapes : nat) (stack : list string)
  : bool :=
  match s with
  | EmptyString => false
  | String c r =>
      match skip with
      | S k => scan_markup r k O stack
      | O =>
          if Ascii.eqb c "\" then scan_markup r O (S escapes) stack
          else if Ascii.eqb c "[" then
            match r with
            | String d _ =>
                if opens_tag d then
                  match tag_text r with
                  | Some text =>
                      if Nat.odd escapes
                      then scan_markup r (S (String.length text)) O stack
                      else
                        match apply_tag text stack with
                        | Some stack' =>
                            scan_markup r (S (String.length text)) O stack'
                        | None => true
                        end
                  | None => scan_markup r O O stack
                  end
                else scan_markup r O O stack
            | EmptyString => false
            end
          else scan_markup r O O stack
      end
  end.

(** The instance follows the library on markup whose tag names are
    single words; it does not evaluate the parameters of [@] tags. *)
#[global] Instance rich_tags : Rich :=
  {| markup_error := fun s => scan_markup s O O [] |}.

(** ** Numbers *)

(** [int(x / c)] for ints [x] and a positive literal [c]: true division
    followed by truncation towards zero.  The float quotient is exact
    enough for the truncation to be that of the rational quotient as
    long as [|x| < 2^50], which covers every percentage. *)
Definition int_truediv (x c : Z) : Z := Z.quot x c.

(** ** Progress bars *)

Definition full_cell : string := "█".
Definition empty_cell : string := "░".

(** ["█" * int(v/cell) + "░" * (width - int(v/cell))]:
    [citadel_cli.py] 163-164 with [cell = 10], [width = 10];
    [citadel_advanced_cli.py] 166, 177-178 with [cell = 5], [width = 20]. *)
Definition progress_bar (cell width v : Z) : string :=
  str_mul full_cell (int_truediv v cell)
  ++ str_mul empty_cell (width - int_truediv v cell).

(** ** Screens, exceptions and output *)

Inductive Screen :=
  | Login | Dashboard | Help | WorkflowList
  | NodeList | Monitoring | Security | Settings.

Definition Screen_eqb (a b : Screen) : bool :=
  match a, b with
  | Login, Login | Dashboard, Dashboard | Help, Help
  | WorkflowList, WorkflowList | NodeList, NodeList
  | Monitoring, Monitoring | Security, Security | Settings, Settings => true
  | _, _ => false
  end.

(** The exceptions the two programs meet. *)
Inductive exn :=
  | NameError (name : string)
  | SystemExit (code : Z)
  | KeyboardInterrupt
  | MarkupError.       (* rich.errors.MarkupError *)

(** What [rich] is handed to draw. *)
Record column := {
  header : string;
  col_style : string;
  no_wrap : bool;
  justify : option string
}.

Inductive renderable :=
  | Markup (text : string)
  | Panel (body : renderable) (title : option string)
          (border_style : option string) (expand : bool)
  | Grid (column_style : string) (rows : list string)
  | Table (title : string) (columns : list column) (rows : list (list string)).

Inductive event :=
  | Shell (command : string)          (* os.system(command) *)
  | Clear                             (* console.clear() *)
  | Print (line : string)             (* print(line) *)
  | Write (text : string)             (* print(text, end=...) with an empty end *)
  | Show (r : renderable) (style : option string)   (* console.print(r, style=...) *)
  | Status (message spinner : string) (* with console.status(message, spinner=...) *)
  | Sleep (milliseconds : Z)          (* time.sleep *)
  | Ask (prompt : string).            (* the prompt of input, getpass or Prompt.ask *)

(** A reading of the clock, [datetime.now()]. *)
Record datetime := {
  year : Z; month : Z; day : Z; hour : Z; minute : Z; second : Z
}.

Definition two_digits (n : Z) : string :=
  (if n <? 10 then "0" else EmptyString) ++ str_of_int n.

(** [now.strftime('%Y-%m-%d %H:%M:%S')]; the C library prints the year
    as it is, without padding. *)
Definition strftime (t : datetime) : string :=
  str_of_int (year t) ++ "-" ++ two_digits (month t) ++ "-"
  ++ two_digits (day t) ++ " " ++ two_digits (hour t) ++ ":"
  ++ two_digits (minute t) ++ ":" ++ two_digits (second t).

Definition nl : string := String (ascii_of_nat 10) EmptyString.
Definition dquote : string := String (ascii_of_nat 34) EmptyString.

(** [os.getenv(name, default)]. *)
Definition getenv (environ : string -> option string) (name default : string)
  : string :=
  match environ name with
  | Some v => v
  | None => default
  end.

(** An environment that sets no variable. *)
Definition no_environ : string -> option string := fun _ => None.

(** ** The basic front-end, [citadel_cli.py] *)

Module Basic.

(** [TerminalStyle]. *)
Definition esc : string := String (ascii_of_nat 27) EmptyString.
Definition RESET := esc ++ "[0m".
Definition BOLD := esc ++ "[1m".
Definition RED := esc ++ "[91m".
Definition GREEN := esc ++ "[92m".
Definition YELLOW := esc ++ "[93m".
Definition BLUE := esc ++ "[94m".
Definition PURPLE := esc ++ "[95m".
Definition CYAN := esc ++ "[96m".
Definition WHITE := esc ++ "[97m".

Record metrics := {
  cpu : Z; ram : Z; nodes : Z; sessions : Z; queued : Z
}.

(** The fields of a [CitadelTerminal]. *)
Record terminal := {
  current_user : option string;
  session_active : bool;
  system_status : string;
  active_workflows : list string;
  system_metrics : metrics
}.

(** [__init__]. *)
Definition init : terminal := {|
  current_user := None;
  session_active := false;
  system_status := "SECURE";
  active_workflows := [];
  system_metrics :=
    {| cpu := 78; ram := 62; nodes := 42; sessions := 3; queued := 7 |}
|}.

(** What the process sees of its host: the environment variables, the
    name of the operating system and the identity [id(self)] of the
    terminal object. *)
Record host := {
  environ : string -> option string;
  os_name : string;
  object_id : Z
}.

Definition clear_screen (h : host) : list event :=
  [Shell (if String.eqb (os_name h) "nt" then "cls" else "clear")].

Definition print_separator (char : string) (length : Z) (color : string)
  : list event :=
  [Print (color ++ str_mul char length ++ RESET)].

Definition print_header (title subtitle : string) : list event :=
  print_separator "=" 65 WHITE
  ++ [Print (CYAN ++ BOLD ++ fmt_center 65 title ++ RESET)]
  ++ match subtitle with
     | EmptyString => []
     | _ => [Print (CYAN ++ fmt_center 65 subtitle ++ RESET)]
     end
  ++ print_separator "=" 65 WHITE.

(** [print_login_screen], up to the read of the user name (78-87). *)
Definition login_form (h : host) : list event :=
  clear_screen h
  ++ print_header "CITADEL-AGENT" "Autonomous Secure Workflow Engine"
  ++ [Print (nl ++ RED ++ "[ AUTHENTICATION REQUIRED ]" ++ RESET ++ nl);
      Write (GREEN ++ " > Username : " ++ RESET);
      Ask EmptyString].

(** 89-90. *)
Definition password_form : list event :=
  [Write (GREEN ++ " > Password : " ++ RESET); Ask EmptyString].

(** 93, and 102 without the line feeds. *)
Definition rule : string := str_mul (nl ++ BLUE ++ "─") 65 ++ RESET.

Definition closing_rule : string := str_mul (BLUE ++ "─") 65 ++ RESET.

(** 92-105. *)
Definition login_notes : list event :=
  [Print rule;
   Print (CYAN ++ "  STATUS : Secure channel initialized" ++ RESET);
   Print (CYAN ++ "  ENGINE : Foundation-Core v0.1.0" ++ RESET);
   Print (CYAN ++ "  MODE   : Operator Login" ++ RESET);
   Print EmptyString;
   Print (YELLOW ++ "  NOTE :" ++ RESET);
   Print (YELLOW ++ "    - Pastikan kredensial benar." ++ RESET);
   Print (YELLOW ++ "    - Akses ini akan dicatat dalam event-log." ++ RESET);
   Print (YELLOW ++ "    - Sistem menggunakan sandbox & policy isolation." ++ RESET);
   Print closing_rule;
   Print (nl ++ GREEN ++ "   Tekan ENTER untuk memulai sesi operasional..." ++ RESET);
   Ask EmptyString].

Definition auth_failed_message : string :=
  RED ++ "✗ Authentication failed. Please try again." ++ RESET.

Definition auth_ok_message : string :=
  GREEN ++ "✓ Authentication successful!" ++ RESET.

(** The comparison of 112-115. *)
Definition credentials_match (h : host) (username password : string) : bool :=
  let admin_username := getenv (environ h) "ADMIN_USERNAME" "admin" in
  let admin_password := getenv (environ h) "ADMIN_PASSWORD" "citadel" in
  String.eqb username admin_username && String.eqb password admin_password.

Definition user_info (h : host) (t : terminal) : list string :=
  ["USER     : " ++ str_of_field (current_user t) ++ "@citadel-corp";
   "ROLE     : Automation Engineer";
   "SESSION  : SECURE-OPS-[" ++ hex_upper (object_id h) ++ "]";
   "STATUS   : Active | Last Activity: 0s ago"].

Definition workflows : list string :=
  ["[RUNNING] Data Sync Pipeline        ████████████ 100%";
   "[PAUSED]  Report Generator        ░░░░░░░░░░░░   25%";
   "[FAILED]  API Monitor             ██░░░░░░░░░░░    8%";
   "[QUEUED]  Email Campaign          ░░░░░░░░░░░░    0%"].

Definition cpu_bar (t : terminal) : string :=
  progress_bar 10 10 (cpu (system_metrics t)).

Definition ram_bar (t : terminal) : string :=
  progress_bar 10 10 (ram (system_metrics t)).

Definition metrics_lines (t : terminal) : list string :=
  let m := system_metrics t in
  [BLUE ++ "┌─ SYSTEM METRICS ───────────────────────────────────────┐" ++ RESET;
   BLUE ++ "│" ++ RESET ++ " CPU: " ++ cpu_bar t ++ " "
     ++ fmt_right 2 (str_of_int (cpu m)) ++ "% | RAM: " ++ ram_bar t ++ " "
     ++ fmt_right 2 (str_of_int (ram m)) ++ "% " ++ BLUE ++ "│" ++ RESET;
   BLUE ++ "│" ++ RESET ++ " Nodes: " ++ str_of_int (nodes m)
     ++ " Active | Sessions: " ++ str_of_int (sessions m)
     ++ " | Queued: " ++ str_of_int (queued m) ++ " " ++ BLUE ++ "│" ++ RESET;
   BLUE ++ "│" ++ RESET ++ " Security: [" ++ GREEN ++ "✓" ++ RESET
     ++ "] Active | Sandboxed: [" ++ GREEN ++ "✓" ++ RESET ++ "] Active "
     ++ BLUE ++ "│" ++ RESET;
   BLUE ++ "└─────────────────────────────────────────────────────────┘" ++ RESET].

Definition actions : list string :=
  ["[1] Create Workflow  [4] View Logs      [7] Settings";
   "[2] Monitor Execs    [5] Manage Nodes   [8] Security";
   "[3] Schedule Task    [6] System Status  [9] Profile "].

(** [display_dashboard], up to the read of the command (126-198). *)
Definition dashboard_view (h : host) (t : terminal) : list event :=
  clear_screen h
  ++ print_header "CITADEL-AGENT DASHBOARD" "Secure Automation Suite"
  ++ [Print (PURPLE ++ "╔" ++ str_mul "═" 63 ++ "╗" ++ RESET)]
  ++ map (fun line =>
            Print (PURPLE ++ "║" ++ CYAN ++ fmt_left 63 line ++ PURPLE ++ "║" ++ RESET))
         (user_info h t)
  ++ [Print (PURPLE ++ "╚" ++ str_mul "═" 63 ++ "╝" ++ RESET)]
  ++ [Print (GREEN ++ "┌─ ACTIVE WORKFLOWS ─────────────────────────────────────┐" ++ RESET)]
  ++ map (fun wf =>
            Print (GREEN ++ "│" ++ RESET ++ " " ++ fmt_left 59 wf ++ " "
                   ++ GREEN ++ "│" ++ RESET))
         workflows
  ++ [Print (GREEN ++ "└─────────────────────────────────────────────────────────┘" ++ RESET)]
  ++ map Print (metrics_lines t)
  ++ [Print (YELLOW ++ "┌─ QUICK ACTIONS ────────────────────────────────────────┐" ++ RESET)]
  ++ map (fun a =>
            Print (YELLOW ++ "│" ++ RESET ++ " " ++ fmt_left 59 a ++ " "
                   ++ YELLOW ++ "│" ++ RESET))
         actions
  ++ [Print (YELLOW ++ "└─────────────────────────────────────────────────────────┘" ++ RESET);
      Print (nl ++ CYAN
             ++ "Press [CMD] for console access | [ESC] for menu | [H] for help"
             ++ RESET);
      Ask (nl ++ GREEN ++ "[CMD]" ++ RESET ++ "> ")].

Definition help_text : list string :=
  [EmptyString;
   BOLD ++ "AVAILABLE COMMANDS:" ++ RESET;
   EmptyString;
   "  dashboard     - Return to main dashboard";
   "  workflow      - Manage workflows (create, run, monitor)";
   "  nodes         - View and manage nodes";
   "  monitor       - Monitor system performance";
   "  security      - View security status and logs";
   "  settings      - Modify user settings";
   EmptyString;
   BOLD ++ "QUICK ACCESS KEYS:" ++ RESET;
   EmptyString;
   "  [H]         - Show this help";
   "  [ESC]       - Return to login";
   "  [CMD]       - Access console";
   EmptyString;
   BOLD ++ "SYSTEM INFORMATION:" ++ RESET;
   EmptyString;
   "  Version: 0.1.0";
   "  Engine: Foundation-Core v0.1.0";
   "  Build: {datetime.now().strftime('%Y-%m-%d %H:%M:%S')}";
   EmptyString;
   "Press ENTER to return to dashboard..."].

(** [show_help], up to the read (213-247). *)
Definition help_view (h : host) : list event :=
  clear_screen h
  ++ print_header "CITADEL-AGENT HELP" "Command Reference"
  ++ map Print help_text
  ++ [Ask EmptyString].

Definition not_recognized_message (cmd : string) : string :=
  YELLOW ++ "Command '" ++ cmd ++ "' not recognized. Press 'H' for help." ++ RESET.

Definition shutdown_message : string :=
  RED ++ "Shutting down Citadel Agent..." ++ RESET.

(** Where a method of [CitadelTerminal] blocks on a read. *)
Inductive point :=
  | LoginUsername                          (* input, 87 *)
  | LoginPassword (username : string)      (* getpass, 90 *)
  | LoginEnter (username password : string)  (* input, 105 *)
  | DashboardCmd                           (* input, 198 *)
  | HelpEnter.                             (* input, 247 *)

(** The calls a frame can be suspended in, named by their line. *)
Inductive site :=
  | Module269      (* main() *)
  | Main265        (* app.run() *)
  | Run253         (* self.print_login_screen(), inside try *)
  | Login120       (* self.display_dashboard() *)
  | Login124       (* self.print_login_screen() *)
  | Dash200        (* self.show_help() *)
  | Dash204        (* self.print_login_screen() *)
  | Dash211        (* self.display_dashboard() *)
  | Help248.       (* self.display_dashboard() *)

Record config := {
  self : terminal;
  active : point;
  callers : list site
}.

Inductive outcome :=
  | Running (c : config)
  | Exited (code : Z)       (* SystemExit reached the top *)
  | Aborted (e : exn).      (* any other exception reached the top *)

(** The frames on the interpreter's stack. *)
Definition depth (c : config) : nat := S (List.length (callers c)).

Definition screen_of (p : point) : Screen :=
  match p with
  | LoginUsername | LoginPassword _ | LoginEnter _ _ => Login
  | DashboardCmd => Dashboard
  | HelpEnter => Help
  end.

Definition current_screen (c : config) : Screen := screen_of (active c).

(** The only handler of the file: [except KeyboardInterrupt] in [run]. *)
Definition catches (s : site) (e : exn) : bool :=
  match s, e with
  | Run253, KeyboardInterrupt => true
  | _, _ => false
  end.

Definition at_top (e : exn) : outcome :=
  match e with
  | SystemExit code => Exited code
  | _ => Aborted e
  end.

(** An exception leaves the active frame and unwinds the callers. *)
Fixpoint raise (e : exn) (k : list site) : outcome * list event :=
  match k with
  | [] => (at_top e, [])
  | s :: k' =>
      if catches s e
      then (* 254-256 *)
        let (o, out) := raise (SystemExit 0) k' in
        (o, Print (nl ++ nl ++ shutdown_message) :: out)
      else raise e k'
  end.

(** The process once [main] has called [run] and [run] the login screen. *)
Definition start : config :=
  {| self := init; active := LoginUsername;
     callers := [Run253; Main265; Module269] |}.

Definition start_output (h : host) : list event :=
  [Print (CYAN ++ "Starting Citadel-Agent v0.1.0..." ++ RESET); Sleep 1000]
  ++ login_form h.

Definition log_in (t : terminal) (username : string) : terminal :=
  {| current_user := Some username;
     session_active := true;
     system_status := system_status t;
     active_workflows := active_workflows t;
     system_metrics := system_metrics t |}.

Section Machine.
Context {py : PyStr}.
Variable h : host.

(** The machine is handed the line a blocked read returns.  A call puts
    its frame on the callers whatever their number: the [RecursionError]
    the interpreter raises at its recursion limit is no transition of
    the machine, which keeps the stack whole for [depth] to measure. *)
Definition step (c : config) (line : string) : outcome * list event :=
  let t := self c in
  let k := callers c in
  match active c with
  | LoginUsername =>
      (Running {| self := t; active := LoginPassword line; callers := k |},
       password_form)
  | LoginPassword username =>
      (Running {| self := t; active := LoginEnter username line; callers := k |},
       login_notes)
  | LoginEnter username password =>
      let authenticating :=
        [Print (CYAN ++ "Authenticating..." ++ RESET); Sleep 1000] in
      if credentials_match h username password
      then
        let t' := log_in t username in
        (Running {| self := t'; active := DashboardCmd;
                    callers := Login120 :: k |},
         (authenticating ++ [Print auth_ok_message; Sleep 1000]
          ++ dashboard_view h t')%list)
      else
        (Running {| self := t; active := LoginUsername;
                    callers := Login124 :: k |},
         (authenticating ++ [Print auth_failed_message; Sleep 2000]
          ++ login_form h)%list)
  | DashboardCmd =>
      let cmd := lower line in
      if String.eqb cmd "h" then
        (Running {| self := t; active := HelpEnter; callers := Dash200 :: k |},
         help_view h)
      else if String.eqb cmd "esc" then
        (Running {| self := t; active := LoginUsername;
                    callers := Dash204 :: k |},
         ([Print "Returning to menu..."; Sleep 1000] ++ login_form h)%list)
      else if String.eqb cmd "quit" || String.eqb cmd "exit" then
        let (o, out) := raise (SystemExit 0) k in
        (o, Print shutdown_message :: out)
      else
        (Running {| self := t; active := DashboardCmd;
                    callers := Dash211 :: k |},
         ([Print (not_recognized_message cmd); Sleep 2000]
          ++ dashboard_view h t)%list)
  | HelpEnter =>
      (Running {| self := t; active := DashboardCmd; callers := Help248 :: k |},
       dashboard_view h t)
  end.

(** The machine on a sequence of lines; it stops with the process. *)
Fixpoint run (c : config) (lines : list string) : outcome * list event :=
  match lines with
  | [] => (Running c, [])
  | line :: rest =>
      match step c line with
      | (Running c', out) =>
          let (o, out') := run c' rest in (o, (out ++ out')%list)
      | stopped => stopped
      end
  end.

(** The strings the command chain of [display_dashboard] compares
    the lowered line with (199-205). *)
Definition commands : list string := ["h"; "esc"; "quit"; "exit"].

(** Whether a line is a command of the screen that reads it.  The
    login form takes its three lines as data and the help screen
    returns on any line; the dashboard knows [commands]. *)
Definition recognized (p : point) (line : string) : bool :=
  match p with
  | DashboardCmd => str_in (lower line) commands
  | _ => true
  end.

End Machine.

End Basic.

(** ** The advanced front-end, [citadel_advanced_cli.py] *)

Module Advanced.

Record workflow := {
  wf_id : string; wf_name : string; wf_status : string; wf_progress : Z
}.

Record metrics := {
  cpu : Z; ram : Z; nodes : Z; sessions : Z; queued : Z;
  security : string; sandbox : string
}.

(** The fields of a [CitadelCLI]. *)
Record cli := {
  current_user : option string;
  session_active : bool;
  session_id : string;
  system_status : string;
  active_workflows : list workflow;
  system_metrics : metrics
}.

(** [__init__]; the session id is drawn by [uuid.uuid4]. *)
Definition init (uuid8 : string) : cli := {|
  current_user := None;
  session_active := false;
  session_id := uuid8;
  system_status := "SECURE";
  active_workflows :=
    [ {| wf_id := "1"; wf_name := "Data Sync Pipeline";
         wf_status := "RUNNING"; wf_progress := 100 |};
      {| wf_id := "2"; wf_name := "Report Generator";
         wf_status := "PAUSED"; wf_progress := 25 |};
      {| wf_id := "3"; wf_name := "API Monitor";
         wf_status := "FAILED"; wf_progress := 8 |};
      {| wf_id := "4"; wf_name := "Email Campaign";
         wf_status := "QUEUED"; wf_progress := 0 |} ];
  system_metrics :=
    {| cpu := 78; ram := 62; nodes := 42; sessions := 3; queued := 7;
       security := "ACTIVE"; sandbox := "ACTIVE" |}
|}.

Record host := { environ : string -> option string }.

(** The names the module binds (6-36, 39, 378) and the built-in names
    it uses; a global name is looked up in the first, then among the
    interpreter's built-ins, none of which is called [os]. *)
Definition module_names : list string :=
  ["__name__"; "__doc__"; "__file__";
   "getpass"; "sys"; "time"; "datetime"; "Dict"; "List"; "uuid";
   "Console"; "Panel"; "Table"; "Progress"; "SpinnerColumn"; "TextColumn";
   "Prompt"; "Text"; "HAS_RICH"; "subprocess";
   "console"; "CitadelCLI"; "main"].

Definition builtin_names : list string :=
  ["print"; "input"; "str"; "int"; "ImportError"; "KeyboardInterrupt"].

(** The exception a global name raises when it is read, if any. *)
Definition load_global (name : string) : option exn :=
  if str_in name module_names || str_in name builtin_names
  then None
  else Some (NameError name).

Definition show (text : string) : event := Show (Markup text) None.

Definition art : string :=
  nl
    ++ "███████╗██████╗ ███████╗███████╗███████╗██╗   ██╗██████╗ " ++ nl
    ++ "██╔════╝██╔══██╗██╔════╝██╔════╝██╔════╝╚██╗ ██╔╝╚════██╗" ++ nl
    ++ "█████╗  ██████╔╝█████╗  █████╗  █████╗   ╚████╔╝  █████╔╝" ++ nl
    ++ "██╔══╝  ██╔══██╗██╔══╝  ██╔══╝  ██╔══╝    ╚██╔╝  ██╔═══╝ " ++ nl
    ++ "███████╗██║  ██║███████╗███████╗███████╗   ██║   ███████╗" ++ nl
    ++ "╚══════╝╚═╝  ╚═╝╚══════╝╚══════╝╚══════╝   ╚═╝   ╚══════╝" ++ nl
    ++ "                                                        " ++ nl
    ++ "        ".

Definition draw_ascii_art : list event :=
  [Show (Markup art) (Some "bold cyan")].

(** [show_login_screen], up to the read of the user name (76-107). *)
Definition login_form : list event :=
  [Clear]
  ++ draw_ascii_art
  ++ [Show (Panel
              (Markup ("[bold cyan]CITADEL-AGENT[/bold cyan]" ++ nl
                       ++ "[italic]Autonomous Secure Workflow Engine[/italic]"))
              (Some "[bold yellow]SECURE LOGIN[/bold yellow]")
              (Some "blue") false) None;
      show (nl ++ "[bold red]AUTHENTICATION REQUIRED[/bold red]" ++ nl);
      Status "[bold green]Initializing secure channel..." "clock";
      Sleep 500;
      show (nl ++ "[yellow]STATUS:[/yellow] Secure channel initialized");
      show "[yellow]ENGINE:[/yellow] Foundation-Core v0.1.0";
      show ("[yellow]MODE:[/yellow] Operator Login" ++ nl);
      show "[yellow]NOTES:[/yellow]";
      show "  • Ensure credentials are correct.";
      show "  • Access will be logged in event-log.";
      show ("  • System uses sandbox & policy isolation." ++ nl);
      Ask "[green]> Username[/green]"].

(** 108. *)
Definition password_form : list event :=
  [Ask "[green]> Password[/green]: "].

(** 111-112. *)
Definition authenticating : list event :=
  [Status "[cyan]Authenticating..." "clock"; Sleep 1500].

Definition auth_ok_message : string :=
  nl ++ "[bold green]✓ Authentication successful![/bold green]".

Definition auth_failed_message : string :=
  nl ++ "[bold red]✗ Authentication failed![/bold red]".

Definition status_symbol (status : string) : string :=
  if String.eqb status "RUNNING" then "🟢"
  else if String.eqb status "PAUSED" then "🟡"
  else if String.eqb status "FAILED" then "🔴"
  else if String.eqb status "QUEUED" then "🔵"
  else "⚪".

Definition status_color (status : string) : string :=
  if String.eqb status "RUNNING" then "green"
  else if String.eqb status "PAUSED" then "yellow"
  else if String.eqb status "FAILED" then "red"
  else if String.eqb status "QUEUED" then "blue"
  else "white".

(** 166. *)
Definition progress (wf : workflow) : string :=
  progress_bar 5 20 (wf_progress wf).

(** 167. *)
Definition status_line (wf : workflow) : string :=
  status_symbol (wf_status wf) ++ " [bold]" ++ fmt_left 20 (wf_name wf)
  ++ "[/bold] " ++ progress wf ++ " "
  ++ fmt_right 3 (str_of_int (wf_progress wf)) ++ "%".

Definition cpu_bar (t : cli) : string :=
  progress_bar 5 20 (cpu (system_metrics t)).

Definition ram_bar (t : cli) : string :=
  progress_bar 5 20 (ram (system_metrics t)).

Definition tick (state : string) : string :=
  if String.eqb state "ACTIVE" then "✓" else "✗".

Definition metrics_rows (t : cli) : list string :=
  let m := system_metrics t in
  ["CPU: " ++ cpu_bar t ++ " " ++ fmt_right 2 (str_of_int (cpu m))
     ++ "% | RAM: " ++ ram_bar t ++ " " ++ fmt_right 2 (str_of_int (ram m)) ++ "%";
   "Nodes: " ++ str_of_int (nodes m) ++ " Active | Sessions: "
     ++ str_of_int (sessions m) ++ " | Queued: " ++ str_of_int (queued m);
   "Security: [" ++ tick (security m) ++ "] Active | Sandboxed: ["
     ++ tick (sandbox m) ++ "] Active"].

Definition cmd_prompt : string := nl ++ "[cyan][CMD][/cyan]".

(** [show_dashboard], up to the first read of a command (130-205). *)
Definition dashboard_view (t : cli) : list event :=
  [Clear]
  ++ draw_ascii_art
  ++ [Show (Panel
              (Markup ("[bold cyan]CITADEL-AGENT DASHBOARD[/bold cyan]" ++ nl
                       ++ "[italic]Secure Automation Suite[/italic]"))
              (Some "[bold yellow]OPERATIONAL DASHBOARD[/bold yellow]")
              (Some "green") false) None;
      Show (Panel
              (Grid "bold white"
                 ["USER: [green]" ++ str_of_field (current_user t)
                    ++ "@citadel-corp[/green]";
                  "ROLE: [green]Automation Engineer[/green]";
                  "SESSION: [green]SECURE-OPS-" ++ session_id t ++ "[/green]";
                  "STATUS: [green]Active | Last Activity: 0s ago[/green]"])
              (Some "User Session") (Some "magenta") true) None;
      Show (Panel (Grid "white" (map status_line (active_workflows t)))
              (Some "Active Workflows") (Some "blue") true) None;
      Show (Panel (Grid "white" (metrics_rows t))
              (Some "System Metrics") (Some "yellow") true) None;
      Show (Panel
              (Markup
                 ("[bold blue][1][/bold blue] Create Workflow    [bold blue][4][/bold blue] View Logs        [bold blue][7][/bold blue] Settings" ++ nl
                  ++ "[bold blue][2][/bold blue] Monitor Execs      [bold blue][5][/bold blue] Manage Nodes     [bold blue][8][/bold blue] Security" ++ nl
                  ++ "[bold blue][3][/bold blue] Schedule Task      [bold blue][6][/bold blue] System Status    [bold blue][9][/bold blue] Profile"))
              (Some "Quick Actions") (Some "cyan") true) None;
      show (nl ++ "[yellow]Press [bold]CMD[/bold] for console access | [bold]ESC[/bold] for menu | [bold]H[/bold] for help[/yellow]");
      Ask cmd_prompt].

(** The text of 238-259: the literal with the clock's reading in place
    of its braces. *)
Definition help_text (now : datetime) : string :=
  nl
    ++ "[b]CITADEL-AGENT HELP[/b]" ++ nl
    ++ "[i]Command Reference[/i]" ++ nl
    ++ nl
    ++ "[u]AVAILABLE COMMANDS:[/u]" ++ nl
    ++ "  dashboard     - Return to main dashboard" ++ nl
    ++ "  workflow      - Manage workflows (create, run, monitor)" ++ nl
    ++ "  nodes         - View and manage nodes" ++ nl
    ++ "  monitor       - Monitor system performance" ++ nl
    ++ "  security      - View security status and logs" ++ nl
    ++ "  settings      - Modify user settings" ++ nl
    ++ nl
    ++ "[u]QUICK ACCESS KEYS:[/u]" ++ nl
    ++ "  [b]H[/b]         - Show this help" ++ nl
    ++ "  [b]ESC[/b]       - Return to login" ++ nl
    ++ "  [b]CMD[/b]       - Access console" ++ nl
    ++ nl
    ++ "[u]SYSTEM INFORMATION:[/u]" ++ nl
    ++ "  Version: 0.1.0" ++ nl
    ++ "  Engine: Foundation-Core v0.1.0" ++ nl
    ++ "  Build: " ++ strftime now ++ nl
    ++ "        ".

Definition enter_prompt : string :=
  nl ++ "Press ENTER to return to dashboard...".

(** [show_help], up to the read (234-262). *)
Definition help_view (now : datetime) : list event :=
  [Clear;
   Show (Panel (Markup (help_text now)) (Some "Help Information")
           (Some "green") true) None;
   Ask enter_prompt].

Definition workflow_row (wf : workflow) : list string :=
  let color := status_color (wf_status wf) in
  [wf_id wf; wf_name wf;
   "[" ++ color ++ "]" ++ wf_status wf ++ "[/" ++ color ++ "]";
   str_of_int (wf_progress wf) ++ "%"].

Definition choice_prompt : string := nl ++ "Select option".

(** [manage_workflows], up to the read of the choice (265-301). *)
Definition workflows_view (t : cli) : list event :=
  [Clear;
   Show (Panel (Markup "[bold blue]WORKFLOW MANAGEMENT[/bold blue]")
           (Some "Workflows") None true) None;
   Show (Table "Active Workflows"
           [ {| header := "ID"; col_style := "cyan";
                no_wrap := true; justify := None |};
             {| header := "Name"; col_style := "magenta";
                no_wrap := false; justify := None |};
             {| header := "Status"; col_style := "green";
                no_wrap := false; justify := None |};
             {| header := "Progress"; col_style := "yellow";
                no_wrap := false; justify := Some "right" |} ]
           (map workflow_row (active_workflows t))) None;
   show (nl ++ "[bold]Actions:[/bold]");
   show "  [1] Create new workflow";
   show "  [2] Run workflow";
   show "  [3] Pause workflow";
   show "  [4] Delete workflow";
   show "  [B] Back to dashboard";
   Ask choice_prompt].

(** [manage_nodes], [show_monitoring] and [show_settings] up to their
    read: a panel and one line. *)
Definition placeholder_view (heading title line : string) : list event :=
  [Clear;
   Show (Panel (Markup heading) (Some title) None true) None;
   show (nl ++ line);
   Ask enter_prompt].

Definition nodes_view : list event :=
  placeholder_view "[bold blue]NODE MANAGEMENT[/bold blue]" "Nodes"
    "[i]Node management interface coming soon...[/i]".

Definition monitoring_view : list event :=
  placeholder_view "[bold blue]SYSTEM MONITORING[/bold blue]" "Monitoring"
    "[i]System monitoring interface coming soon...[/i]".

Definition settings_view : list event :=
  placeholder_view "[bold blue]USER SETTINGS[/bold blue]" "Settings"
    "[i]Settings interface coming soon...[/i]".

(** [show_security], up to the read (331-357). *)
Definition security_view : list event :=
  [Clear;
   Show (Panel (Markup "[bold blue]SECURITY DASHBOARD[/bold blue]")
           (Some "Security") None true) None;
   Show (Panel
           (Grid "white"
              ["[green]ACTIVE THREATS: NONE[/green]";
               "[green]SANDBOX STATUS: ALL SECURE[/green]";
               "[yellow]AUTH LOGS: Last 24hrs: 423 Events | 0 Suspicious[/yellow]"])
           (Some "Security Status") (Some "red") true) None;
   Show (Panel
           (Markup
              (nl
               ++ "[b]AUDIT TRAIL:[/b]" ++ nl
               ++ "[15:32:47] User admin@citadel logged in from 10.0.0.42" ++ nl
               ++ "[15:31:22] Workflow " ++ dquote ++ "Data Sync Pipeline" ++ dquote ++ " started execution" ++ nl
               ++ "[15:30:15] Node " ++ dquote ++ "HTTP Request" ++ dquote ++ " completed successfully" ++ nl
               ++ "[15:29:08] Security scan on node " ++ dquote ++ "Data Processor" ++ dquote ++ " PASSED" ++ nl
               ++ "[15:28:55] Scheduled backup initiated for workflow data" ++ nl
               ++ "        "))
           (Some "Recent Activity") (Some "blue") true) None;
   Ask enter_prompt].

Definition not_recognized_message (cmd_input : string) : string :=
  "[yellow]Command '" ++ cmd_input ++ "' not recognized. Press 'H' for help.[/yellow]".

Definition shutdown_message : string :=
  "[red]Shutting down Citadel Agent...[/red]".

(** The message [rich] answers a value outside [choices] with. *)
Definition illegal_choice_message : string :=
  "[prompt.invalid.choice]Please select one of the available options".

(** Where a method of [CitadelCLI] blocks on a read. *)
Inductive point :=
  | LoginUsername                      (* Prompt.ask, 107 *)
  | LoginPassword (username : string)  (* getpass, 108 *)
  | LoginRetry                         (* input, 127 *)
  | DashboardCmd                       (* Prompt.ask, 205 *)
  | HelpEnter                          (* input, 262 *)
  | WorkflowChoice                     (* Prompt.ask, 301 *)
  | WorkflowContinue                   (* input, 310 *)
  | NodesEnter                         (* input, 319 *)
  | MonitoringEnter                    (* input, 328 *)
  | SecurityEnter                      (* input, 357 *)
  | SettingsEnter.                     (* input, 366 *)

(** The calls a frame can be suspended in, named by their line. *)
Inductive site :=
  | Module388 | Main384 | Run372
  | Login123 | Login128
  | Dash208 | Dash212 | Dash217 | Dash219 | Dash221 | Dash223 | Dash225 | Dash227
  | Help263
  | Wf304 | Wf311
  | Nodes320 | Mon329 | Sec358 | Set367.

Record config := {
  self : cli;
  active : point;
  callers : list site
}.

Inductive outcome :=
  | Running (c : config)
  | Exited (code : Z)
  | Aborted (e : exn).

Definition depth (c : config) : nat := S (List.length (callers c)).

Definition screen_of (p : point) : Screen :=
  match p with
  | LoginUsername | LoginPassword _ | LoginRetry => Login
  | DashboardCmd => Dashboard
  | HelpEnter => Help
  | WorkflowChoice | WorkflowContinue => WorkflowList
  | NodesEnter => NodeList
  | MonitoringEnter => Monitoring
  | SecurityEnter => Security
  | SettingsEnter => Settings
  end.

Definition current_screen (c : config) : Screen := screen_of (active c).

(** The calls made inside the [try] of [show_dashboard]'s loop. *)
Definition in_dashboard_loop (s : site) : bool :=
  match s with
  | Dash208 | Dash212 | Dash217 | Dash219
  | Dash221 | Dash223 | Dash225 | Dash227 => true
  | _ => false
  end.

(** The handlers of the file, 230 and 373: both [except KeyboardInterrupt]. *)
Definition handles (e : exn) : bool :=
  match e with
  | KeyboardInterrupt => true
  | _ => false
  end.

Definition catches (s : site) (e : exn) : bool :=
  match s with
  | Run372 => handles e
  | _ => in_dashboard_loop s && handles e
  end.

Definition at_top (e : exn) : outcome :=
  match e with
  | SystemExit code => Exited code
  | _ => Aborted e
  end.

(** The active method returns: every caller other than the loop of
    [show_dashboard] has nothing left to do and returns as well; the
    loop asks for the next command; past [main] the process ends. *)
Fixpoint resume (t : cli) (k : list site) : outcome * list event :=
  match k with
  | [] => (Exited 0, [])
  | s :: k' =>
      if in_dashboard_loop s
      then (Running {| self := t; active := DashboardCmd; callers := k' |},
            [Ask cmd_prompt])
      else resume t k'
  end.

(** An exception leaves the active frame and unwinds the callers. *)
Fixpoint raise (t : cli) (e : exn) (k : list site) : outcome * list event :=
  match k with
  | [] => (at_top e, [])
  | s :: k' =>
      if catches s e
      then
        if in_dashboard_loop s
        then (* 230-232: break, and the method returns *)
          let (o, out) := resume t k' in
          (o, show (nl ++ "[red]Received interrupt. Returning to dashboard...[/red]")
                :: out)
        else (* 373-375 *)
          let (o, out) := raise t (SystemExit 0) k' in
          (o, show (nl ++ nl ++ shutdown_message) :: out)
      else raise t e k'
  end.

(** An exception raised by the body of [show_dashboard]'s loop meets
    the handler of its own frame first. *)
Definition raise_in_loop (t : cli) (e : exn) (k : list site)
  : outcome * list event :=
  if handles e
  then
    let (o, out) := resume t k in
    (o, show (nl ++ "[red]Received interrupt. Returning to dashboard...[/red]")
          :: out)
  else raise t e k.

(** The process once [main] has called [run] and [run] the login screen. *)
Definition start (uuid8 : string) : config :=
  {| self := init uuid8; active := LoginUsername;
     callers := [Run372; Main384; Module388] |}.

Definition start_output : list event :=
  [show "[cyan]Starting Citadel-Agent v0.1.0...[/cyan]"; Sleep 500]
  ++ login_form.

Definition log_in (t : cli) (username : string) : cli :=
  {| current_user := Some username;
     session_active := true;
     session_id := session_id t;
     system_status := system_status t;
     active_workflows := active_workflows t;
     system_metrics := system_metrics t |}.

Definition choices : list string := ["1"; "2"; "3"; "4"; "B"].

Section Machine.
Context {py : PyStr} {rm : Rich}.
Variable h : host.

(** What [Prompt.ask] makes of a line: the default for the empty
    line when there is one, the stripped line otherwise. *)
Definition prompt_ask (default : option string) (line : string) : string :=
  match default, line with
  | Some d, EmptyString => d
  | _, _ => strip line
  end.

(** [Prompt.ask] with [choices]: [None] when the value is refused and
    the prompt is shown again. *)
Definition prompt_choose (allowed : list string) (default line : string)
  : option string :=
  match line with
  | EmptyString => Some default
  | _ =>
      let value := strip line in
      if str_in (strip value) allowed then Some value else None
  end.

(** The comparison of 115-118, once [os] has been found. *)
Definition credentials_match (username password : string) : bool :=
  let admin_username := getenv (environ h) "ADMIN_USERNAME" "admin" in
  let admin_password := getenv (environ h) "ADMIN_PASSWORD" "citadel" in
  String.eqb (lower username) (lower admin_username)
  && String.eqb password admin_password.

Definition call (t : cli) (s : site) (k : list site) (p : point)
  (out : list event) : outcome * list event :=
  (Running {| self := t; active := p; callers := s :: k |}, out).

Definition stay (c : config) (p : point) (out : list event)
  : outcome * list event :=
  (Running {| self := self c; active := p; callers := callers c |}, out).

(** The machine is handed the clock and the line a blocked read returns. *)
Definition step (now : datetime) (c : config) (line : string)
  : outcome * list event :=
  let t := self c in
  let k := callers c in
  match active c with
  | LoginUsername =>
      stay c (LoginPassword (prompt_ask None line)) password_form
  | LoginPassword username =>
      let password := line in
      match load_global "os" with
      | Some e =>
          let (o, out) := raise t e k in (o, (authenticating ++ out)%list)
      | None =>
          if credentials_match username password
          then
            call (log_in t username) Login123 k DashboardCmd
              (authenticating
               ++ [show auth_ok_message; Sleep 1000]
               ++ dashboard_view (log_in t username))%list
          else
            stay c LoginRetry
              (authenticating
               ++ [show auth_failed_message;
                   show "[yellow]Press ENTER to try again...[/yellow]";
                   Ask EmptyString])%list
      end
  | LoginRetry => call t Login128 k LoginUsername login_form
  | DashboardCmd =>
      let cmd_input := prompt_ask (Some EmptyString) line in
      let cmd := lower cmd_input in
      if String.eqb cmd "h" then
        call t Dash208 k HelpEnter (help_view now)
      else if String.eqb cmd "esc" then
        call t Dash212 k LoginUsername
          ([show "[yellow]Returning to login screen...[/yellow]"; Sleep 1000]
           ++ login_form)%list
      else if str_in cmd ["quit"; "exit"; "q"] then
        let (o, out) := raise_in_loop t (SystemExit 0) k in
        (o, show shutdown_message :: out)
      else if String.eqb cmd "dashboard" then
        call t Dash217 k DashboardCmd (dashboard_view t)
      else if String.eqb cmd "workflow" then
        call t Dash219 k WorkflowChoice (workflows_view t)
      else if String.eqb cmd "nodes" then
        call t Dash221 k NodesEnter nodes_view
      else if String.eqb cmd "monitor" then
        call t Dash223 k MonitoringEnter monitoring_view
      else if String.eqb cmd "security" then
        call t Dash225 k SecurityEnter security_view
      else if String.eqb cmd "settings" then
        call t Dash227 k SettingsEnter settings_view
      else if markup_error (not_recognized_message cmd_input) then
        (* 229: the typed text is part of the markup *)
        raise_in_loop t MarkupError k
      else
        stay c DashboardCmd
          [show (not_recognized_message cmd_input); Ask cmd_prompt]
  | HelpEnter => call t Help263 k DashboardCmd (dashboard_view t)
  | WorkflowChoice =>
      match prompt_choose choices "B" line with
      | None =>
          stay c WorkflowChoice [show illegal_choice_message; Ask choice_prompt]
      | Some choice =>
          if String.eqb choice "B" then
            call t Wf304 k DashboardCmd (dashboard_view t)
          else if String.eqb choice "1" then
            stay c WorkflowContinue
              [Status "[cyan]Creating new workflow..." "clock"; Sleep 1000;
               show "[green]✓ New workflow created![/green]";
               Ask "Press ENTER to continue..."]
          else resume t k
      end
  | WorkflowContinue => call t Wf311 k WorkflowChoice (workflows_view t)
  | NodesEnter => call t Nodes320 k DashboardCmd (dashboard_view t)
  | MonitoringEnter => call t Mon329 k DashboardCmd (dashboard_view t)
  | SecurityEnter => call t Sec358 k DashboardCmd (dashboard_view t)
  | SettingsEnter => call t Set367 k DashboardCmd (dashboard_view t)
  end.

(** The machine on a sequence of lines, each with the clock's reading
    when it is handled; it stops with the process. *)
Fixpoint run (c : config) (inputs : list (datetime * string))
  : outcome * list event :=
  match inputs with
  | [] => (Running c, [])
  | (now, line) :: rest =>
      match step now c line with
      | (Running c', out) =>
          let (o, out') := run c' rest in (o, (out ++ out')%list)
      | stopped => stopped
      end
  end.

(** The strings the command chain of [show_dashboard] compares the
    lowered command with (207-226). *)
Definition commands : list string :=
  ["h"; "esc"; "quit"; "exit"; "q"; "dashboard"; "workflow"; "nodes";
   "monitor"; "security"; "settings"].

(** Whether a line is a command of the screen that reads it.  The
    dashboard knows [commands], the workflow screen its [choices]
    and the empty line; every other read takes any line. *)
Definition recognized (p : point) (line : string) : bool :=
  match p with
  | DashboardCmd => str_in (lower (prompt_ask (Some EmptyString) line)) commands
  | WorkflowChoice =>
      match line with
      | EmptyString => true
      | _ => str_in (strip (strip line)) choices
      end
  | _ => true
  end.

End Machine.

End Advanced.

(** ** The controller's view of the two machines *)

(** What handling one line amounts to: the machine goes to a screen,
    the process exits, the line is refused and the screen kept, or the
    process dies of an exception. *)
Inductive transition :=
  | GoTo (s : Screen)
  | Exit (code : Z)
  | Reject (kept : Screen)
  | Abort (e : exn).

Definition basic_handle_command {py : PyStr} (h : Basic.host)
  (c : Basic.config) (line : string) : transition :=
  match fst (Basic.step h c line) with
  | Basic.Running c' =>
      if Basic.recognized (Basic.active c) line
      then GoTo (Basic.current_screen c')
      else Reject (Basic.current_screen c')
  | Basic.Exited code => Exit code
  | Basic.Aborted e => Abort e
  end.

Definition advanced_handle_command {py : PyStr} {rm : Rich}
  (h : Advanced.host)
  (now : datetime) (c : Advanced.config) (line : string) : transition :=
  match fst (Advanced.step h now c line) with
  | Advanced.Running c' =>
      if Advanced.recognized (Advanced.active c) line
      then GoTo (Advanced.current_screen c')
      else Reject (Advanced.current_screen c')
  | Advanced.Exited code => Exit code
  | Advanced.Aborted e => Abort e
  end.

(** A front-end with the state its screens are drawn from. *)
Inductive frontend :=
  | BasicFrontend (h : Basic.host) (t : Basic.terminal)
  | AdvancedFrontend (t : Advanced.cli).

(** What a screen's method writes from its entry to its first read;
    the basic front-end has three screens. *)
Definition render (now : datetime) (f : frontend) (s : Screen)
  : option (list event) :=
  match f with
  | BasicFrontend h t =>
      match s with
      | Login => Some (Basic.login_form h)
      | Dashboard => Some (Basic.dashboard_view h t)
      | Help => Some (Basic.help_view h)
      | _ => None
      end
  | AdvancedFrontend t =>
      match s with
      | Login => Some Advanced.login_form
      | Dashboard => Some (Advanced.dashboard_view t)
      | Help => Some (Advanced.help_view now)
      | WorkflowList => Some (Advanced.workflows_view t)
      | NodeList => Some Advanced.nodes_view
      | Monitoring => Some Advanced.monitoring_view
      | Security => Some Advanced.security_view
      | Settings => Some Advanced.settings_view
      end
  end.

(** What the screens of a front-end read of the host and the object:
    the basic ones the name of the operating system, the identity of
    the object, the user and the metrics; the advanced ones the user,
    the session id, the workflows and the metrics. *)
Definition basic_display_equal (h h' : Basic.host) (t t' : Basic.terminal)
  : Prop :=
  Basic.os_name h = Basic.os_name h'
  /\ Basic.object_id h = Basic.object_id h'
  /\ Basic.current_user t = Basic.current_user t'
  /\ Basic.system_metrics t = Basic.system_metrics t'.

Definition advanced_display_equal (t t' : Advanced.cli) : Prop :=
  Advanced.current_user t = Advanced.current_user t'
  /\ Advanced.session_id t = Advanced.session_id t'
  /\ Advanced.active_workflows t = Advanced.active_workflows t'
  /\ Advanced.system_metrics t = Advanced.system_metrics t'.

(** The lines of a failed or successful login in the basic front-end:
    user name, password and the line that starts the session. *)
Definition attempt : Set := (string * string * string)%type.

Definition attempt_lines (a : attempt) : list string :=
  let '(username, password, enter) := a in [username; password; enter].

Definition fails (h : Basic.host) (a : attempt) : Prop :=
  let '(username, password, _) := a in
  Basic.credentials_match h username password = false.

(** The specification's rounding: [k] is an integer nearest to
    [num / den]. *)
Definition is_rounding (num den k : Z) : Prop :=
  2 * Z.abs (num - k * den) <= den.

(** Concrete hosts and states the closed statements below are about. *)
Definition basic_host : Basic.host :=
  {| Basic.environ := no_environ; Basic.os_name := "posix";
     Basic.object_id := 140000000000000 |}.

Definition advanced_host : Advanced.host :=
  {| Advanced.environ := no_environ |}.

Definition noon : datetime :=
  {| year := 2024; month := 1; day := 1; hour := 12; minute := 0; second := 0 |}.

Definition noon_and_a_second : datetime :=
  {| year := 2024; month := 1; day := 1; hour := 12; minute := 0; second := 1 |}.

Definition basic_at (p : Basic.point) : Basic.config :=
  {| Basic.self := Basic.init; Basic.active := p;
     Basic.callers := Basic.callers Basic.start |}.

Definition advanced_at (p : Advanced.point) : Advanced.config :=
  {| Advanced.self := Advanced.init "1A2B3C4D"; Advanced.active := p;
     Advanced.callers := Advanced.callers (Advanced.start "1A2B3C4D") |}.

(** A terminal whose CPU reading lies outside the percentages. *)
Definition overloaded : Basic.terminal :=
  {| Basic.current_user := Some "admin";
     Basic.session_active := true;
     Basic.system_status := "SECURE";
     Basic.active_workflows := [];
     Basic.system_metrics :=
       {| Basic.cpu := 150; Basic.ram := -10; Basic.nodes := 42;
          Basic.sessions := 3; Basic.queued := 7 |} |}.

(** ** Interrupts, reachable configurations and the screen graphs *)

(** Ctrl-C while a read blocks raises [KeyboardInterrupt] in the active
    frame.  No screen method of the basic front-end has a handler, so
    the exception goes to the callers (250-256). *)
Definition basic_interrupt (c : Basic.config) : Basic.outcome * list event :=
  Basic.raise KeyboardInterrupt (Basic.callers c).

(** In the advanced front-end the read of the dashboard sits inside the
    [try] of its loop (203-232); the other reads have no handler around
    them in their own method. *)
Definition advanced_interrupt (c : Advanced.config)
  : Advanced.outcome * list event :=
  match Advanced.active c with
  | Advanced.DashboardCmd =>
      Advanced.raise_in_loop (Advanced.self c) KeyboardInterrupt
        (Advanced.callers c)
  | _ =>
      Advanced.raise (Advanced.self c) KeyboardInterrupt (Advanced.callers c)
  end.

(** The name and the password the basic login compares with (112-113). *)
Definition admin_username (h : Basic.host) : string :=
  getenv (Basic.environ h) "ADMIN_USERNAME" "admin".

Definition admin_password (h : Basic.host) : string :=
  getenv (Basic.environ h) "ADMIN_PASSWORD" "citadel".

(** The screen changes a step of each front-end can make. *)
Definition basic_edge (a b : Screen) : bool :=
  match a, b with
  | Login, Login | Login, Dashboard
  | Dashboard, Login | Dashboard, Dashboard | Dashboard, Help
  | Help, Dashboard => true
  | _, _ => false
  end.

Definition advanced_edge (a b : Screen) : bool :=
  match a, b with
  | Login, Login => true
  | Login, _ => false
  | Dashboard, _ => true
  | WorkflowList, WorkflowList => true
  | _, Dashboard => true
  | _, _ => false
  end.

(** The first line of the user box of the basic dashboard (133). *)
Definition user_line (t : Basic.terminal) : string :=
  "USER     : " ++ str_of_field (Basic.current_user t) ++ "@citadel-corp".

(** The tables among the events of a screen. *)
Definition tables (out : list event)
  : list (list column * list (list string)) :=
  flat_map
    (fun e =>
       match e with
       | Show (Table _ columns rows) _ => [(columns, rows)]
       | _ => []
       end)
    out.

(** * Properties *)

(** ** Code points of bars *)

Lemma glyphs_head (c : ascii) (r : string) :
  exists g gs, glyphs (String c r) = String c g :: gs.
Proof.
  simpl. destruct (glyphs r) as [|g gs].
  - exists EmptyString, []. reflexivity.
  - destruct (starts_with_continuation g).
    + exists g, gs. reflexivity.
    + exists EmptyString, (g :: gs). reflexivity.
Qed.

Lemma glyphs_full_cell (s : string) :
  starts_with_continuation s = false ->
  glyphs (full_cell ++ s) = full_cell :: glyphs s.
Proof.
  intros Hs. destruct s as [|c r].
  - reflexivity.
  - destruct (glyphs_head c r) as (g & gs & E).
    simpl in Hs. unfold full_cell.
    cbn [append glyphs]. cbn [append glyphs] in E. rewrite E.
    cbn [starts_with_continuation]. rewrite Hs. reflexivity.
Qed.

Lemma glyphs_empty_cell (s : string) :
  starts_with_continuation s = false ->
  glyphs (empty_cell ++ s) = empty_cell :: glyphs s.
Proof.
  intros Hs. destruct s as [|c r].
  - reflexivity.
  - destruct (glyphs_head c r) as (g & gs & E).
    simpl in Hs. unfold empty_cell.
    cbn [append glyphs]. cbn [append glyphs] in E. rewrite E.
    cbn [starts_with_continuation]. rewrite Hs. reflexivity.
Qed.

Lemma append_assoc (a b c : string) : ((a ++ b) ++ c)%string = (a ++ b ++ c)%string.
Proof.
  induction a as [|x a IH]; simpl; [reflexivity | now rewrite IH].
Qed.

Lemma str_rep_full_start (n : nat) (s : string) :
  starts_with_continuation s = false ->
  starts_with_continuation (str_rep full_cell n ++ s) = false.
Proof.
  intros Hs. destruct n as [|n]; [exact Hs | reflexivity].
Qed.

Lemma str_rep_empty_start (n : nat) (s : string) :
  starts_with_continuation s = false ->
  starts_with_continuation (str_rep empty_cell n ++ s) = false.
Proof.
  intros Hs. destruct n as [|n]; [exact Hs | reflexivity].
Qed.

Lemma glyphs_str_rep_full (n : nat) (s : string) :
  starts_with_continuation s = false ->
  glyphs (str_rep full_cell n ++ s) = (repeat full_cell n ++ glyphs s)%list.
Proof.
  intros Hs. induction n as [|n IH].
  - reflexivity.
  - cbn [str_rep repeat]. rewrite append_assoc.
    rewrite glyphs_full_cell by now apply str_rep_full_start.
    rewrite IH. reflexivity.
Qed.

Lemma glyphs_str_rep_empty (n : nat) (s : string) :
  starts_with_continuation s = false ->
  glyphs (str_rep empty_cell n ++ s) = (repeat empty_cell n ++ glyphs s)%list.
Proof.
  intros Hs. induction n as [|n IH].
  - reflexivity.
  - cbn [str_rep repeat]. rewrite append_assoc.
    rewrite glyphs_empty_cell by now apply str_rep_empty_start.
    rewrite IH. reflexivity.
Qed.

Lemma append_empty_r (s : string) : (s ++ EmptyString)%string = s.
Proof.
  induction s as [|x s IH]; simpl; [reflexivity | now rewrite IH].
Qed.

(** The code points of a bar of [n] full cells and [m] empty ones. *)
Lemma glyphs_cells (n m : nat) :
  glyphs (str_rep full_cell n ++ str_rep empty_cell m)
  = (repeat full_cell n ++ repeat empty_cell m)%list.
Proof.
  rewrite glyphs_str_rep_full.
  - f_equal. rewrite <- (append_empty_r (str_rep empty_cell m)).
    rewrite glyphs_str_rep_empty by reflexivity.
    simpl. now rewrite app_nil_r.
  - rewrite <- (append_empty_r (str_rep empty_cell m)).
    now apply str_rep_empty_start.
Qed.

Lemma filter_repeat_same (g : string) (n : nat) :
  filter (String.eqb g) (repeat g n) = repeat g n.
Proof.
  induction n as [|n IH]; simpl; [reflexivity|].
  rewrite String.eqb_refl, IH. reflexivity.
Qed.

Lemma filter_repeat_other (g g' : string) (n : nat) :
  String.eqb g g' = false -> filter (String.eqb g) (repeat g' n) = [].
Proof.
  intros E. induction n as [|n IH]; simpl; [reflexivity|].
  rewrite E. exact IH.
Qed.

Lemma py_len_cells (n m : nat) :
  py_len (str_rep full_cell n ++ str_rep empty_cell m) = (n + m)%nat.
Proof.
  unfold py_len. rewrite glyphs_cells, length_app, !repeat_length. reflexivity.
Qed.

Lemma count_full_cells (n m : nat) :
  count_glyph full_cell (str_rep full_cell n ++ str_rep empty_cell m) = n.
Proof.
  unfold count_glyph. rewrite glyphs_cells, filter_app.
  rewrite filter_repeat_same, filter_repeat_other by reflexivity.
  rewrite app_nil_r. apply repeat_length.
Qed.

Lemma count_empty_cells (n m : nat) :
  count_glyph empty_cell (str_rep full_cell n ++ str_rep empty_cell m) = m.
Proof.
  unfold count_glyph. rewrite glyphs_cells, filter_app.
  rewrite filter_repeat_same, filter_repeat_other by reflexivity.
  apply repeat_length.
Qed.

(** Truncation is the floor on what a percentage is. *)
Lemma int_truediv_floor (v cell width : Z) :
  0 < cell -> cell * width = 100 -> 0 <= v ->
  int_truediv v cell = v * width / 100.
Proof.
  intros Hc Hw Hv. unfold int_truediv.
  rewrite Z.quot_div_nonneg by lia.
  assert (0 < width) by nia.
  rewrite <- Hw. rewrite Z.div_mul_cancel_r by lia. reflexivity.
Qed.

(** ** Progress bars (C3, C7) *)

(** C3, as amended: for a percentage [v] between 0 and 100 and a bar of
    [width] cells that stand for [cell] points each ([cell * width = 100]:
    ten cells of ten points in the basic front-end, twenty of five in the
    advanced one), the bar has exactly [width] cells, of which exactly
    [floor (v / 100 * width)] are full and the others empty.  The product
    is truncated, not rounded. *)
Theorem progress_bar_cells (cell width v : Z) :
  0 < cell -> cell * width = 100 -> 0 <= v <= 100 ->
  py_len (progress_bar cell width v) = Z.to_nat width
  /\ count_glyph full_cell (progress_bar cell width v)
     = Z.to_nat (v * width / 100)
  /\ count_glyph empty_cell (progress_bar cell width v)
     = Z.to_nat (width - v * width / 100).
Proof.
  intros Hc Hw Hv. unfold progress_bar, str_mul.
  rewrite (int_truediv_floor v cell width) by lia.
  assert (0 < width) by nia.
  assert (0 <= v * width / 100 <= width).
  { split.
    - apply Z.div_pos; nia.
    - apply Z.div_le_upper_bound; nia. }
  rewrite py_len_cells, count_full_cells, count_empty_cells.
  repeat split; lia.
Qed.

Lemma progress_bar_cells_witness :
  py_len (progress_bar 10 10 78) = Z.to_nat 10
  /\ count_glyph full_cell (progress_bar 10 10 78) = Z.to_nat (78 * 10 / 100)
  /\ count_glyph empty_cell (progress_bar 10 10 78)
     = Z.to_nat (10 - 78 * 10 / 100).
Proof.
  apply (progress_bar_cells 10 10 78); lia.
Defined.

(** C3 as stated fails: the CPU bar of the basic front-end, drawn from the
    reading 78 the terminal starts with, has seven full cells out of ten,
    and seven is not [round (0.78 * 10)]. *)
Lemma cpu_bar_is_not_rounded :
  count_glyph full_cell (Basic.cpu_bar Basic.init) = 7%nat
  /\ ~ is_rounding (78 * 10) 100
         (Z.of_nat (count_glyph full_cell (Basic.cpu_bar Basic.init))).
Proof.
  split.
  - reflexivity.
  - unfold is_rounding.
    replace (count_glyph full_cell (Basic.cpu_bar Basic.init)) with 7%nat
      by reflexivity.
    simpl. lia.
Qed.

Lemma basic_raise_system_exit (code : Z) (k : list Basic.site) :
  Basic.raise (SystemExit code) k = (Basic.Exited code, []).
Proof.
  induction k as [|s k IH]; simpl.
  - reflexivity.
  - destruct s; simpl; exact IH.
Qed.

(** C7, as amended: a percentage is not checked.  For a reading above
    100 the bar is [trunc (v / cell)] full cells, at least [width] of
    them, and no empty cell; for a reading below 0 it is no full cell
    and [width - trunc (v / cell)] empty ones, at least [width]; and the
    step that draws the dashboard goes through whatever the readings of
    the terminal are.  (The widths are the literals 10 and 20.) *)
Theorem progress_bar_unchecked (cell width v : Z) :
  0 < cell -> cell * width = 100 -> Z.abs v < 2 ^ 50 ->
  (100 < v ->
     progress_bar cell width v = str_mul full_cell (v / cell)
     /\ width <= v / cell
     /\ py_len (progress_bar cell width v) = Z.to_nat (v / cell))
  /\ (v < 0 ->
     progress_bar cell width v = str_mul empty_cell (width + (- v) / cell)
     /\ py_len (progress_bar cell width v) = Z.to_nat (width + (- v) / cell))
  /\ (forall {py : PyStr} (h : Basic.host) (t : Basic.terminal)
             (k : list Basic.site) (line : string),
        Basic.step h
          {| Basic.self := t; Basic.active := Basic.HelpEnter;
             Basic.callers := k |} line
        = (Basic.Running
             {| Basic.self := t; Basic.active := Basic.DashboardCmd;
                Basic.callers := Basic.Help248 :: k |},
           Basic.dashboard_view h t)).
Proof.
  intros Hc Hw _. assert (Hwidth : 0 < width) by nia.
  split; [|split].
  - intros Hv.
    assert (Hq : int_truediv v cell = v / cell).
    { unfold int_truediv. apply Z.quot_div_nonneg; lia. }
    assert (Hge : width <= v / cell).
    { apply Z.div_le_lower_bound; nia. }
    assert (Hbar : progress_bar cell width v = str_mul full_cell (v / cell)).
    { unfold progress_bar. rewrite Hq.
      unfold str_mul at 2.
      replace (Z.to_nat (width - v / cell)) with 0%nat by lia.
      simpl. apply append_empty_r. }
    split; [exact Hbar | split; [exact Hge|]].
    unfold progress_bar, str_mul. rewrite Hq.
    rewrite py_len_cells. lia.
  - intros Hv.
    assert (Hq : int_truediv v cell = - ((- v) / cell)).
    { unfold int_truediv.
      replace v with (- (- v)) at 1 by lia.
      rewrite Z.quot_opp_l by lia.
      rewrite Z.quot_div_nonneg by lia. reflexivity. }
    assert (Hpos : 0 <= (- v) / cell) by (apply Z.div_pos; lia).
    assert (Hbar : progress_bar cell width v
                   = str_mul empty_cell (width + (- v) / cell)).
    { unfold progress_bar. rewrite Hq.
      unfold str_mul at 1.
      replace (Z.to_nat (- (- v / cell))) with 0%nat by lia.
      simpl. f_equal. lia. }
    split; [exact Hbar|].
    unfold progress_bar, str_mul. rewrite Hq.
    rewrite py_len_cells. lia.
  - intros py h t k line. reflexivity.
Qed.

Lemma progress_bar_unchecked_witness :
  progress_bar 10 10 150 = str_mul full_cell (150 / 10)
  /\ progress_bar 10 10 (-10) = str_mul empty_cell (10 + (- -10) / 10).
Proof.
  assert (H0 : 0 < 10) by lia.
  assert (H1 : 10 * 10 = 100) by lia.
  assert (H2 : Z.abs 150 < 2 ^ 50) by (vm_compute; reflexivity).
  assert (H3 : Z.abs (-10) < 2 ^ 50) by (vm_compute; reflexivity).
  split.
  - apply (proj1 (progress_bar_unchecked 10 10 150 H0 H1 H2)). lia.
  - apply (proj1 (proj2 (progress_bar_unchecked 10 10 (-10) H0 H1 H3))). lia.
Defined.

(** C7 as stated fails: with a CPU reading of 150 and a RAM reading of
    -10 the dashboard is drawn, no exception ends the step, and the line
    of the metrics carries a bar of fifteen full cells and one of eleven
    empty cells. *)
Lemma overloaded_dashboard_is_drawn :
  fst (Basic.step basic_host
         {| Basic.self := overloaded; Basic.active := Basic.HelpEnter;
            Basic.callers := Basic.callers Basic.start |} EmptyString)
  = Basic.Running
      {| Basic.self := overloaded; Basic.active := Basic.DashboardCmd;
         Basic.callers := Basic.Help248 :: Basic.callers Basic.start |}
  /\ In (Print (Basic.BLUE ++ "│" ++ Basic.RESET ++ " CPU: "
                ++ str_mul full_cell 15 ++ " 150% | RAM: "
                ++ str_mul empty_cell 11 ++ " -10% "
                ++ Basic.BLUE ++ "│" ++ Basic.RESET))
        (snd (Basic.step basic_host
                {| Basic.self := overloaded; Basic.active := Basic.HelpEnter;
                   Basic.callers := Basic.callers Basic.start |} EmptyString)).
Proof.
  split.
  - reflexivity.
  - vm_compute. do 18 right. left. reflexivity.
Qed.

(** ** Exceptions reach the top *)

Lemma advanced_raise_unhandled (t : Advanced.cli) (e : exn)
  (k : list Advanced.site) :
  Advanced.handles e = false ->
  Advanced.raise t e k = (Advanced.at_top e, []).
Proof.
  intros He. induction k as [|s k IH]; simpl.
  - reflexivity.
  - unfold Advanced.catches. rewrite He, andb_false_r.
    destruct s; exact IH.
Qed.

Lemma str_in_cons (x y : string) (l : list string) :
  str_in x (y :: l) = String.eqb x y || str_in x l.
Proof. reflexivity. Qed.


Lemma prompt_ask_nonempty {py : PyStr} (default : option string)
  (line : string) :
  line <> EmptyString -> Advanced.prompt_ask default line = strip line.
Proof.
  intros N. destruct default, line; simpl; try reflexivity. now destruct N.
Qed.

(** ** Commands of the dashboard (C4, C5, C6, C9) *)

Section Commands.
Context {py : PyStr} {rm : Rich}.

(** C4, as amended: when the current screen is the Dashboard, the
    command "esc" in any letter case leads to the Login screen, in
    both front-ends (the advanced one strips the line first). *)
Theorem esc_at_dashboard :
  (forall (h : Basic.host) (c : Basic.config) (line : string),
      Basic.active c = Basic.DashboardCmd ->
      lower line = "esc" ->
      basic_handle_command h c line = GoTo Login)
  /\ (forall (h : Advanced.host) (now : datetime) (c : Advanced.config)
             (line : string),
      Advanced.active c = Advanced.DashboardCmd ->
      line <> EmptyString ->
      lower (strip line) = "esc" ->
      advanced_handle_command h now c line = GoTo Login).
Proof.
  split.
  - intros h c line Hc Hl.
    unfold basic_handle_command, Basic.step, Basic.recognized.
    rewrite Hc, Hl. reflexivity.
  - intros h now c line Hc Hn Hl.
    unfold advanced_handle_command, Advanced.step, Advanced.recognized.
    rewrite Hc, (prompt_ask_nonempty _ line Hn), Hl. reflexivity.
Qed.

(** A line the dashboard of the basic front-end does not know is
    answered with the message, and the dashboard draws itself again, one
    frame deeper, with the object as it was. *)
Lemma basic_unrecognized_is_rejected (h : Basic.host) (c : Basic.config)
  (line : string) :
  Basic.recognized (Basic.active c) line = false ->
  basic_handle_command h c line = Reject (Basic.current_screen c)
  /\ Basic.step h c line
     = (Basic.Running
          {| Basic.self := Basic.self c; Basic.active := Basic.DashboardCmd;
             Basic.callers := Basic.Dash211 :: Basic.callers c |},
        Print (Basic.not_recognized_message (lower line))
          :: Sleep 2000 :: Basic.dashboard_view h (Basic.self c))
  /\ Basic.current_screen c = Dashboard.
Proof.
  destruct c as [t p k]. intros Hr. cbn [Basic.active] in Hr.
  destruct p; cbn [Basic.recognized] in Hr; try discriminate Hr.
  unfold Basic.commands in Hr. rewrite !str_in_cons in Hr.
  apply orb_false_elim in Hr as [Eh Hr].
  apply orb_false_elim in Hr as [Ee Hr].
  apply orb_false_elim in Hr as [Eq Hr].
  apply orb_false_elim in Hr as [Ex _].
  assert (Hstep :
    Basic.step h
      {| Basic.self := t; Basic.active := Basic.DashboardCmd;
         Basic.callers := k |} line
    = (Basic.Running
         {| Basic.self := t; Basic.active := Basic.DashboardCmd;
            Basic.callers := Basic.Dash211 :: k |},
       Print (Basic.not_recognized_message (lower line))
         :: Sleep 2000 :: Basic.dashboard_view h t)).
  { unfold Basic.step. cbn [Basic.active Basic.self Basic.callers].
    rewrite Eh, Ee, Eq, Ex. reflexivity. }
  split; [|split; [exact Hstep | reflexivity]].
  unfold basic_handle_command. rewrite Hstep.
  cbn [fst Basic.active Basic.recognized]. unfold Basic.commands.
  rewrite !str_in_cons, Eh, Ee, Eq, Ex. reflexivity.
Qed.

(** A line the dashboard of the advanced front-end does not know is put
    into the markup of the message.  When [rich] renders it, the message
    is shown and the loop asks again, nothing changed; when it does not,
    [MarkupError] leaves the loop and every caller, and the process
    dies. *)
Lemma advanced_unrecognized_command (h : Advanced.host) (now : datetime)
  (t : Advanced.cli) (k : list Advanced.site) (line : string) :
  let c := {| Advanced.self := t; Advanced.active := Advanced.DashboardCmd;
              Advanced.callers := k |} in
  let message :=
    Advanced.not_recognized_message
      (Advanced.prompt_ask (Some EmptyString) line) in
  Advanced.recognized Advanced.DashboardCmd line = false ->
  (markup_error message = false ->
   Advanced.step h now c line
   = (Advanced.Running c, [Advanced.show message; Ask Advanced.cmd_prompt])
   /\ advanced_handle_command h now c line = Reject Dashboard)
  /\ (markup_error message = true ->
      Advanced.step h now c line = (Advanced.Aborted MarkupError, [])
      /\ advanced_handle_command h now c line = Abort MarkupError).
Proof.
  intros c message Hr. assert (Hr' := Hr).
  cbn [Advanced.recognized] in Hr.
  unfold Advanced.commands in Hr. rewrite !str_in_cons in Hr.
  repeat (apply orb_false_elim in Hr as [? Hr]).
  assert (Hstep :
    Advanced.step h now c line
    = if markup_error message
      then (Advanced.Aborted MarkupError, [])
      else (Advanced.Running c,
            [Advanced.show message; Ask Advanced.cmd_prompt])).
  { unfold Advanced.step, c.
    cbn [Advanced.active Advanced.self Advanced.callers].
    rewrite !str_in_cons.
    repeat match goal with
           | E : String.eqb _ _ = false |- _ => rewrite E; clear E
           end.
    cbn [orb]. fold message. destruct (markup_error message).
    - unfold Advanced.raise_in_loop. cbn [Advanced.handles].
      apply advanced_raise_unhandled. reflexivity.
    - reflexivity. }
  split; intros Hm; rewrite Hm in Hstep; (split; [exact Hstep|]);
    unfold advanced_handle_command; rewrite Hstep; cbn [fst].
  - change (Advanced.active c) with Advanced.DashboardCmd.
    rewrite Hr'. reflexivity.
  - reflexivity.
Qed.

(** A value the workflow screen does not offer is answered with the
    library's message and asked for again. *)
Lemma advanced_illegal_choice (h : Advanced.host) (now : datetime)
  (t : Advanced.cli) (k : list Advanced.site) (line : string) :
  let c := {| Advanced.self := t; Advanced.active := Advanced.WorkflowChoice;
              Advanced.callers := k |} in
  Advanced.recognized Advanced.WorkflowChoice line = false ->
  Advanced.step h now c line
  = (Advanced.Running c,
     [Advanced.show Advanced.illegal_choice_message;
      Ask Advanced.choice_prompt])
  /\ advanced_handle_command h now c line = Reject WorkflowList.
Proof.
  intros c Hr. cbn [Advanced.recognized] in Hr.
  assert (Hstep :
    Advanced.step h now c line
    = (Advanced.Running c,
       [Advanced.show Advanced.illegal_choice_message;
        Ask Advanced.choice_prompt])).
  { unfold Advanced.step, Advanced.prompt_choose, c.
    cbn [Advanced.active Advanced.self Advanced.callers].
    destruct line; [discriminate Hr|]. rewrite Hr. reflexivity. }
  split; [exact Hstep|].
  unfold advanced_handle_command. rewrite Hstep.
  cbn [fst]. change (Advanced.active c) with Advanced.WorkflowChoice.
  cbn [Advanced.recognized]. rewrite Hr. reflexivity.
Qed.

(** C6, as amended: at the Dashboard, "quit" and "exit" in any letter
    case end the process with exit code 0 in both front-ends, and so
    does "q" in the advanced front-end. *)
Theorem quit_at_dashboard :
  (forall (h : Basic.host) (c : Basic.config) (line : string),
      Basic.active c = Basic.DashboardCmd ->
      lower line = "quit" \/ lower line = "exit" ->
      basic_handle_command h c line = Exit 0)
  /\ (forall (h : Advanced.host) (now : datetime) (c : Advanced.config)
             (line : string),
      Advanced.active c = Advanced.DashboardCmd ->
      line <> EmptyString ->
      lower (strip line) = "quit" \/ lower (strip line) = "exit"
      \/ lower (strip line) = "q" ->
      advanced_handle_command h now c line = Exit 0).
Proof.
  split.
  - intros h c line Hc Hl.
    unfold basic_handle_command, Basic.step.
    rewrite Hc.
    destruct Hl as [Hl | Hl]; rewrite Hl; cbn [String.eqb Ascii.eqb Bool.eqb orb];
      rewrite basic_raise_system_exit; reflexivity.
  - intros h now c line Hc Hn Hl.
    unfold advanced_handle_command, Advanced.step.
    rewrite Hc, (prompt_ask_nonempty _ line Hn).
    destruct Hl as [Hl | [Hl | Hl]]; rewrite Hl;
      cbn [String.eqb Ascii.eqb Bool.eqb orb str_in existsb];
      unfold Advanced.raise_in_loop; cbn [Advanced.handles];
      rewrite advanced_raise_unhandled by reflexivity; reflexivity.
Qed.


End Commands.

Lemma esc_at_dashboard_witness :
  basic_handle_command basic_host (basic_at Basic.DashboardCmd) "EsC"
  = GoTo Login
  /\ advanced_handle_command advanced_host noon
       (advanced_at Advanced.DashboardCmd) " ESC "
     = GoTo Login.
Proof.
  split.
  - apply (proj1 esc_at_dashboard); reflexivity.
  - apply (proj2 esc_at_dashboard); [reflexivity | discriminate | reflexivity].
Defined.

(** C4 as stated fails away from the Dashboard: on the Help screen of the
    basic front-end the line "esc" leads to the Dashboard, as any line
    does there, and not to the Login screen. *)
Lemma esc_at_help_goes_to_dashboard :
  basic_handle_command basic_host (basic_at Basic.HelpEnter) "esc"
  = GoTo Dashboard
  /\ basic_handle_command basic_host (basic_at Basic.HelpEnter) "esc"
     <> GoTo Login.
Proof.
  split; [reflexivity | discriminate].
Qed.

(** C5 at a line with a closing tag: the basic front-end rejects
    "[/x]" and keeps the Dashboard; in the advanced front-end the line
    is no command either, and the message built around it ends the
    process with [MarkupError]. *)
Theorem markup_in_command_aborts :
  basic_handle_command basic_host (basic_at Basic.DashboardCmd) "[/x]"
  = Reject Dashboard
  /\ Advanced.recognized Advanced.DashboardCmd "[/x]" = false
  /\ Advanced.step advanced_host noon (advanced_at Advanced.DashboardCmd) "[/x]"
     = (Advanced.Aborted MarkupError, [])
  /\ advanced_handle_command advanced_host noon
       (advanced_at Advanced.DashboardCmd) "[/x]"
     = Abort MarkupError.
Proof.
  split; [reflexivity | split; [reflexivity | split; reflexivity]].
Qed.

Lemma quit_at_dashboard_witness :
  basic_handle_command basic_host (basic_at Basic.DashboardCmd) "Quit" = Exit 0
  /\ advanced_handle_command advanced_host noon
       (advanced_at Advanced.DashboardCmd) "Q"
     = Exit 0.
Proof.
  split.
  - apply (proj1 quit_at_dashboard); [reflexivity | left; reflexivity].
  - apply (proj2 quit_at_dashboard);
      [reflexivity | discriminate | right; right; reflexivity].
Defined.

(** C6 as stated fails away from the Dashboard: on the Help screen of the
    basic front-end the line "quit" leads to the Dashboard and the
    process goes on. *)
Lemma quit_at_help_goes_to_dashboard :
  basic_handle_command basic_host (basic_at Basic.HelpEnter) "quit"
  = GoTo Dashboard
  /\ basic_handle_command basic_host (basic_at Basic.HelpEnter) "quit"
     <> Exit 0.
Proof.
  split; [reflexivity | discriminate].
Qed.



(** ** Logging in (C1, C2) and the depth of the stack (C10) *)

Lemma string_cons_neq (x : ascii) (s : string) : String.eqb (String x s) s = false.
Proof.
  apply String.eqb_neq. intros E.
  apply (f_equal String.length) in E. simpl in E.
  induction (String.length s); [discriminate E | injection E; auto].
Qed.

Section Sessions.
Context {py : PyStr} {rm : Rich}.

Lemma basic_run_cons (h : Basic.host) (c : Basic.config) (line : string)
  (rest : list string) :
  fst (Basic.run h c (line :: rest))
  = match fst (Basic.step h c line) with
    | Basic.Running c' => fst (Basic.run h c' rest)
    | stopped => stopped
    end.
Proof.
  simpl. destruct (Basic.step h c line) as [[c' | code | e] out]; simpl;
    try reflexivity.
  destruct (Basic.run h c' rest). reflexivity.
Qed.

(** The three lines of a login in the basic front-end: the dashboard
    with the user recorded when the pair is the expected one, the
    login form again and the object untouched otherwise. *)
Lemma basic_login (h : Basic.host) (t : Basic.terminal)
  (k : list Basic.site) (username password enter : string) :
  fst (Basic.run h
         {| Basic.self := t; Basic.active := Basic.LoginUsername;
            Basic.callers := k |}
         [username; password; enter])
  = if Basic.credentials_match h username password
    then Basic.Running
           {| Basic.self := Basic.log_in t username;
              Basic.active := Basic.DashboardCmd;
              Basic.callers := Basic.Login120 :: k |}
    else Basic.Running
           {| Basic.self := t; Basic.active := Basic.LoginUsername;
              Basic.callers := Basic.Login124 :: k |}.
Proof.
  rewrite basic_run_cons. cbn [Basic.step Basic.active fst].
  rewrite basic_run_cons. cbn [Basic.step Basic.active fst].
  rewrite basic_run_cons.
  unfold Basic.step. cbn [Basic.active Basic.self Basic.callers].
  destruct (Basic.credentials_match h username password); reflexivity.
Qed.

Lemma basic_failed_attempts (h : Basic.host) (attempts : list attempt) :
  Forall (fails h) attempts ->
  forall (t : Basic.terminal) (k : list Basic.site),
  exists k',
    fst (Basic.run h
           {| Basic.self := t; Basic.active := Basic.LoginUsername;
              Basic.callers := k |}
           (flat_map attempt_lines attempts))
    = Basic.Running
        {| Basic.self := t; Basic.active := Basic.LoginUsername;
           Basic.callers := k' |}
    /\ List.length k' = (List.length k + List.length attempts)%nat.
Proof.
  induction 1 as [| [[username password] enter] attempts Hfail _ IH];
    intros t k.
  - exists k. split; [reflexivity | simpl; lia].
  - cbn [flat_map attempt_lines app].
    rewrite basic_run_cons. cbn [Basic.step Basic.active fst].
    rewrite basic_run_cons. cbn [Basic.step Basic.active fst].
    rewrite basic_run_cons.
    unfold Basic.step at 1. cbn [Basic.active Basic.self Basic.callers].
    unfold fails in Hfail. rewrite Hfail. cbn [fst].
    destruct (IH t (Basic.Login124 :: k)) as (k' & Hrun & Hlen).
    exists k'. split; [exact Hrun | simpl in *; lia].
Qed.

Lemma basic_unrecognized_commands (h : Basic.host) (cmds : list string) :
  Forall (fun line => Basic.recognized Basic.DashboardCmd line = false) cmds ->
  forall (t : Basic.terminal) (k : list Basic.site),
  exists k',
    fst (Basic.run h
           {| Basic.self := t; Basic.active := Basic.DashboardCmd;
              Basic.callers := k |} cmds)
    = Basic.Running
        {| Basic.self := t; Basic.active := Basic.DashboardCmd;
           Basic.callers := k' |}
    /\ List.length k' = (List.length k + List.length cmds)%nat.
Proof.
  induction 1 as [| line cmds Hline _ IH]; intros t k.
  - exists k. split; [reflexivity | simpl; lia].
  - rewrite basic_run_cons.
    unfold Basic.step at 1.
    cbn [Basic.active Basic.self Basic.callers].
    cbn [Basic.recognized] in Hline. unfold Basic.commands in Hline.
    rewrite !str_in_cons in Hline.
    repeat (apply orb_false_elim in Hline as [? Hline]).
    repeat match goal with
           | E : String.eqb _ _ = false |- _ => rewrite E; clear E
           end.
    cbn [orb fst].
    destruct (IH t (Basic.Dash211 :: k)) as (k' & Hrun & Hlen).
    exists k'. split; [exact Hrun | simpl in *; lia].
Qed.

(** No method of the basic front-end returns: a step leaves the chain
    of callers as it is or puts one more frame on it. *)
Lemma basic_step_pushes (h : Basic.host) (c c' : Basic.config)
  (line : string) :
  fst (Basic.step h c line) = Basic.Running c' ->
  Basic.callers c' = Basic.callers c
  \/ exists s, Basic.callers c' = s :: Basic.callers c.
Proof.
  destruct c as [t p k]. unfold Basic.step.
  cbn [Basic.active Basic.self Basic.callers].
  destruct p.
  - intros E. injection E as <-. left. reflexivity.
  - intros E. injection E as <-. left. reflexivity.
  - destruct (Basic.credentials_match h username password);
      intros E; injection E as <-; right; eexists; reflexivity.
  - destruct (String.eqb (lower line) "h").
    { intros E; injection E as <-; right; eexists; reflexivity. }
    destruct (String.eqb (lower line) "esc").
    { intros E; injection E as <-; right; eexists; reflexivity. }
    destruct (String.eqb (lower line) "quit" || String.eqb (lower line) "exit").
    { rewrite basic_raise_system_exit. discriminate. }
    intros E; injection E as <-; right; eexists; reflexivity.
  - intros E; injection E as <-; right; eexists; reflexivity.
Qed.

(** C10: in the basic front-end a screen is entered by a call that
    never returns, so the stack only grows: [n] failed logins in a row
    put [n] more frames on it, and so do [n] unrecognized commands of
    the dashboard; whatever the recursion limit, some sequence of
    lines takes a run from the start past it.  The advanced front-end
    writes the retry of a login as a call of the login screen too. *)
Theorem basic_stack_grows_without_bound (h : Basic.host) :
  (forall (c c' : Basic.config) (line : string),
      fst (Basic.step h c line) = Basic.Running c' ->
      (Basic.depth c <= Basic.depth c')%nat)
  /\ (forall (c : Basic.config) (attempts : list attempt),
      Basic.active c = Basic.LoginUsername ->
      Forall (fails h) attempts ->
      exists c',
        fst (Basic.run h c (flat_map attempt_lines attempts))
        = Basic.Running c'
        /\ Basic.active c' = Basic.LoginUsername
        /\ Basic.depth c' = (Basic.depth c + List.length attempts)%nat)
  /\ (forall (c : Basic.config) (cmds : list string),
      Basic.active c = Basic.DashboardCmd ->
      Forall (fun line => Basic.recognized Basic.DashboardCmd line = false)
        cmds ->
      exists c',
        fst (Basic.run h c cmds) = Basic.Running c'
        /\ Basic.active c' = Basic.DashboardCmd
        /\ Basic.depth c' = (Basic.depth c + List.length cmds)%nat)
  /\ (forall limit : nat,
      exists (lines : list string) (c' : Basic.config),
        fst (Basic.run h Basic.start lines) = Basic.Running c'
        /\ (limit < Basic.depth c')%nat)
  /\ (forall (ha : Advanced.host) (now : datetime) (t : Advanced.cli)
             (k : list Advanced.site) (line : string),
      Advanced.step ha now
        {| Advanced.self := t; Advanced.active := Advanced.LoginRetry;
           Advanced.callers := k |} line
      = (Advanced.Running
           {| Advanced.self := t; Advanced.active := Advanced.LoginUsername;
              Advanced.callers := Advanced.Login128 :: k |},
         Advanced.login_form)).
Proof.
  assert (Hlogins :
    forall (c : Basic.config) (attempts : list attempt),
      Basic.active c = Basic.LoginUsername ->
      Forall (fails h) attempts ->
      exists c',
        fst (Basic.run h c (flat_map attempt_lines attempts))
        = Basic.Running c'
        /\ Basic.active c' = Basic.LoginUsername
        /\ Basic.depth c' = (Basic.depth c + List.length attempts)%nat).
  { intros [t p k] attempts Hp Hall. cbn [Basic.active] in Hp. subst p.
    destruct (basic_failed_attempts h attempts Hall t k) as (k' & Hrun & Hlen).
    eexists. split; [exact Hrun|]. split; [reflexivity|].
    unfold Basic.depth. cbn [Basic.callers]. lia. }
  split; [|split; [exact Hlogins | split; [|split]]].
  - intros c c' line Hstep. unfold Basic.depth.
    destruct (basic_step_pushes h c c' line Hstep) as [E | [s E]];
      rewrite E; simpl; lia.
  - intros [t p k] cmds Hp Hall. cbn [Basic.active] in Hp. subst p.
    destruct (basic_unrecognized_commands h cmds Hall t k)
      as (k' & Hrun & Hlen).
    eexists. split; [exact Hrun|]. split; [reflexivity|].
    unfold Basic.depth. cbn [Basic.callers]. lia.
  - intros limit.
    set (stranger :=
           String "x" (getenv (Basic.environ h) "ADMIN_USERNAME" "admin")).
    set (a := (stranger, EmptyString, EmptyString) : attempt).
    assert (Hfail : fails h a).
    { unfold fails, a, Basic.credentials_match, stranger.
      rewrite string_cons_neq. reflexivity. }
    destruct (Hlogins Basic.start (repeat a limit) eq_refl
                (proj2 (Forall_forall _ _)
                   (fun x Hx => eq_ind_r (fails h) Hfail
                                  (repeat_spec limit a x Hx))))
      as (c' & Hrun & _ & Hdepth).
    exists (flat_map attempt_lines (repeat a limit)), c'.
    split; [exact Hrun|].
    rewrite Hdepth, repeat_length. unfold Basic.depth. simpl. lia.
  - intros ha now t k line. reflexivity.
Qed.

(** C2: in the advanced front-end every login ends the process with
    the exception [NameError] for the name [os], whatever the user
    name, the password, the environment and the state are: no handler
    of the file catches it, the dashboard is not entered and no
    failure is reported. *)
Theorem advanced_login_raises_name_error
  (h : Advanced.host) (t : Advanced.cli) (k : list Advanced.site)
  (now now' : datetime) (username password : string) :
  Advanced.run h
    {| Advanced.self := t; Advanced.active := Advanced.LoginUsername;
       Advanced.callers := k |}
    [(now, username); (now', password)]
  = (Advanced.Aborted (NameError "os"),
     (Advanced.password_form ++ Advanced.authenticating)%list).
Proof.
  cbn [Advanced.run Advanced.step Advanced.active Advanced.stay
         Advanced.self Advanced.callers].
  change (Advanced.load_global "os") with (Some (NameError "os")).
  cbv beta iota.
  rewrite advanced_raise_unhandled by reflexivity.
  cbn [Advanced.at_top]. rewrite app_nil_r. reflexivity.
Qed.

End Sessions.

Lemma basic_stack_grows_without_bound_witness :
  exists c',
    fst (Basic.run basic_host Basic.start
           (flat_map attempt_lines
              [("admin", "wrong", EmptyString); ("root", "citadel", EmptyString)]))
    = Basic.Running c'
    /\ Basic.active c' = Basic.LoginUsername
    /\ Basic.depth c' = (Basic.depth Basic.start + 2)%nat.
Proof.
  apply (proj1 (proj2 (basic_stack_grows_without_bound basic_host))
           Basic.start
           [("admin", "wrong", EmptyString); ("root", "citadel", EmptyString)]).
  - reflexivity.
  - repeat constructor.
Defined.

(** C1 at the pair the code expects by default, the environment setting
    neither variable: the basic front-end enters the Dashboard, the
    advanced front-end dies of [NameError] before it compares. *)
Theorem default_credentials_login :
  (exists c',
      fst (Basic.run basic_host Basic.start ["admin"; "citadel"; EmptyString])
      = Basic.Running c'
      /\ Basic.current_screen c' = Dashboard
      /\ Basic.current_user (Basic.self c') = Some "admin")
  /\ fst (Advanced.run advanced_host (Advanced.start "1A2B3C4D")
            [(noon, "admin"); (noon_and_a_second, "citadel")])
     = Advanced.Aborted (NameError "os").
Proof.
  split.
  - eexists. split; [reflexivity | split; reflexivity].
  - reflexivity.
Qed.

(** ** Drawing a screen twice (C8) *)

Lemma append_cancel_l (a x y : string) :
  (a ++ x)%string = (a ++ y)%string -> x = y.
Proof.
  induction a as [|c a IH]; simpl; intros E; [exact E|].
  injection E as E. exact (IH E).
Qed.

Lemma length_append (a b : string) :
  String.length (a ++ b) = (String.length a + String.length b)%nat.
Proof.
  induction a as [|c a IH]; simpl; [reflexivity | now rewrite IH].
Qed.

Lemma append_cancel_r (b x y : string) :
  (x ++ b)%string = (y ++ b)%string -> x = y.
Proof.
  revert y. induction x as [|c x IH]; intros [|d y] E.
  - reflexivity.
  - apply (f_equal String.length) in E. simpl in E.
    rewrite length_append in E. lia.
  - apply (f_equal String.length) in E. simpl in E.
    rewrite length_append in E. lia.
  - simpl in E. injection E as -> E. f_equal. exact (IH y E).
Qed.

(** The Build line is the only place of the help text the clock shows
    in. *)
Lemma help_text_stamp (now now' : datetime) :
  Advanced.help_text now = Advanced.help_text now' <->
  strftime now = strftime now'.
Proof.
  unfold Advanced.help_text. split.
  - intros E. repeat apply append_cancel_l in E.
    exact (append_cancel_r _ _ _ E).
  - intros ->. reflexivity.
Qed.

(** C8, as amended: what a screen writes is determined by the data it
    displays, the clock showing on one screen only.  In the basic
    front-end the Login and Dashboard screens print the same lines for
    the same operating system, object identity, user and metrics; in
    the advanced front-end every screen other than Help hands [rich]
    the same renderables for the same user, session id, workflows and
    metrics; the Help screen of the advanced front-end shows the time
    it is drawn at, and two drawings of it are the same exactly when
    the clock reads the same to the second. *)
Theorem render_is_determined (now now' : datetime) :
  (forall (h h' : Basic.host) (t t' : Basic.terminal) (s : Screen),
      s = Login \/ s = Dashboard ->
      basic_display_equal h h' t t' ->
      exists out,
        render now (BasicFrontend h t) s = Some out
        /\ render now' (BasicFrontend h' t') s = Some out)
  /\ (forall (t t' : Advanced.cli) (s : Screen),
      s <> Help ->
      advanced_display_equal t t' ->
      exists out,
        render now (AdvancedFrontend t) s = Some out
        /\ render now' (AdvancedFrontend t') s = Some out)
  /\ (forall t t' : Advanced.cli,
      render now (AdvancedFrontend t) Help
      = render now' (AdvancedFrontend t') Help
      <-> strftime now = strftime now').
Proof.
  split; [|split].
  - intros [env os id] [env' os' id'] [u a st w m] [u' a' st' w' m'] s Hs
      (Hos & Hid & Hu & Hm).
    cbn [Basic.os_name Basic.object_id Basic.current_user
           Basic.system_metrics] in Hos, Hid, Hu, Hm.
    subst os' id' u' m'.
    destruct Hs as [-> | ->]; eexists; split; reflexivity.
  - intros [u a i st w m] [u' a' i' st' w' m'] s Hs (Hu & Hi & Hw & Hm).
    cbn [Advanced.current_user Advanced.session_id Advanced.active_workflows
           Advanced.system_metrics] in Hu, Hi, Hw, Hm.
    subst u' i' w' m'.
    destruct s; try (eexists; split; reflexivity). now destruct Hs.
  - intros t t'. unfold render, Advanced.help_view. split.
    + intros E. apply help_text_stamp. congruence.
    + intros E. apply help_text_stamp in E. rewrite E. reflexivity.
Qed.

Lemma render_is_determined_witness :
  exists out,
    render noon
      (BasicFrontend basic_host (Basic.log_in Basic.init "admin")) Dashboard
    = Some out
    /\ render noon_and_a_second
         (BasicFrontend
            {| Basic.environ := fun _ => Some "x"; Basic.os_name := "posix";
               Basic.object_id := 140000000000000 |}
            {| Basic.current_user := Some "admin";
               Basic.session_active := false;
               Basic.system_status := "DOWN";
               Basic.active_workflows := ["one"];
               Basic.system_metrics := Basic.system_metrics Basic.init |})
         Dashboard
       = Some out.
Proof.
  apply (proj1 (render_is_determined noon noon_and_a_second)).
  - right. reflexivity.
  - repeat split.
Defined.

(** C8 as stated fails: the Help screen of the advanced front-end, drawn
    from the same state a second later, carries another Build line. *)
Lemma help_differs_a_second_later :
  render noon (AdvancedFrontend (Advanced.init "1A2B3C4D")) Help
  <> render noon_and_a_second (AdvancedFrontend (Advanced.init "1A2B3C4D")) Help.
Proof.
  intros E. vm_compute in E. discriminate E.
Qed.

(** * Further properties of the basic front-end *)

Section BasicRuns.
Context {py : PyStr}.
Variable h : Basic.host.

(** A property every step keeps is kept by every run. *)
Lemma basic_run_preserves (P : Basic.config -> Prop) :
  (forall c line c',
      P c -> fst (Basic.step h c line) = Basic.Running c' -> P c') ->
  forall lines c c',
    P c -> fst (Basic.run h c lines) = Basic.Running c' -> P c'.
Proof.
  intros Hstep. induction lines as [|line lines IH]; intros c c' HP Hrun.
  - simpl in Hrun. injection Hrun as <-. exact HP.
  - rewrite basic_run_cons in Hrun.
    destruct (fst (Basic.step h c line)) as [c1 | code | e] eqn:E;
      try discriminate Hrun.
    exact (IH c1 c' (Hstep c line c1 HP E) Hrun).
Qed.

Lemma credentials_match_iff (username password : string) :
  Basic.credentials_match h username password = true
  <-> username = admin_username h /\ password = admin_password h.
Proof.
  unfold Basic.credentials_match, admin_username, admin_password.
  rewrite andb_true_iff, !String.eqb_eq. reflexivity.
Qed.

(** What one step of the basic front-end can do to the object, the
    active point and the callers. *)
Lemma basic_step_cases (c c' : Basic.config) (line : string) :
  fst (Basic.step h c line) = Basic.Running c' ->
  (Basic.self c' = Basic.self c
   \/ (Basic.self c' = Basic.log_in (Basic.self c) (admin_username h)
       /\ Basic.active c' = Basic.DashboardCmd))
  /\ (Basic.current_screen c' = Login
      \/ Basic.self c' = Basic.log_in (Basic.self c) (admin_username h)
      \/ Basic.current_screen c <> Login).
Proof.
  destruct c as [t p k]. unfold Basic.step.
  cbn [Basic.active Basic.self Basic.callers].
  destruct p.
  - intros E; injection E as <-. split; [left | left]; reflexivity.
  - intros E; injection E as <-. split; [left | left]; reflexivity.
  - destruct (Basic.credentials_match h username password) eqn:M;
      intros E; injection E as <-.
    + apply credentials_match_iff in M as [-> _].
      split; [right; split | right; left]; reflexivity.
    + split; [left | left]; reflexivity.
  - destruct (String.eqb (lower line) "h").
    { intros E; injection E as <-.
      split; [left; reflexivity | right; right; discriminate]. }
    destruct (String.eqb (lower line) "esc").
    { intros E; injection E as <-. split; [left | left]; reflexivity. }
    destruct (String.eqb (lower line) "quit" || String.eqb (lower line) "exit").
    { rewrite basic_raise_system_exit. discriminate. }
    intros E; injection E as <-.
    split; [left; reflexivity | right; right; discriminate].
  - intros E; injection E as <-.
    split; [left; reflexivity | right; right; discriminate].
Qed.

(** X1: the three lines of a login in the basic front-end lead to the
    dashboard, with the user recorded and the session opened, exactly
    when the user name and the password are those of the environment
    (compared as they were typed: no trimming, no change of case);
    otherwise the failure is reported, the login form is drawn again and
    the object is untouched. *)
Theorem basic_login_decides (t : Basic.terminal) (k : list Basic.site)
  (username password enter : string) :
  (username = admin_username h /\ password = admin_password h ->
   fst (Basic.run h
          {| Basic.self := t; Basic.active := Basic.LoginUsername;
             Basic.callers := k |}
          [username; password; enter])
   = Basic.Running
       {| Basic.self :=
            {| Basic.current_user := Some username;
               Basic.session_active := true;
               Basic.system_status := Basic.system_status t;
               Basic.active_workflows := Basic.active_workflows t;
               Basic.system_metrics := Basic.system_metrics t |};
          Basic.active := Basic.DashboardCmd;
          Basic.callers := Basic.Login120 :: k |})
  /\ (~ (username = admin_username h /\ password = admin_password h) ->
      Basic.run h
        {| Basic.self := t; Basic.active := Basic.LoginUsername;
           Basic.callers := k |}
        [username; password; enter]
      = (Basic.Running
           {| Basic.self := t; Basic.active := Basic.LoginUsername;
              Basic.callers := Basic.Login124 :: k |},
         (Basic.password_form ++ Basic.login_notes
          ++ [Print (Basic.CYAN ++ "Authenticating..." ++ Basic.RESET);
              Sleep 1000; Print Basic.auth_failed_message; Sleep 2000]
          ++ Basic.login_form h)%list)).
Proof.
  split.
  - intros Hm. apply credentials_match_iff in Hm.
    rewrite basic_login, Hm. reflexivity.
  - intros Hm.
    assert (M : Basic.credentials_match h username password = false).
    { destruct (Basic.credentials_match h username password) eqn:M;
        [|reflexivity].
      apply credentials_match_iff in M. contradiction. }
    cbn [Basic.run Basic.step Basic.active Basic.self Basic.callers].
    rewrite M. cbn [app]. rewrite !app_nil_r. reflexivity.
Qed.



(** X3: in every configuration a run from the start reaches, the user
    on record is either none, with the session closed, or the
    administrator's name of the environment, with the session open; the
    Dashboard and the Help screen are shown only with the session open;
    and the status, the workflows and the metrics are those the object
    was created with. *)
Theorem basic_session_invariant (lines : list string) (c : Basic.config) :
  fst (Basic.run h Basic.start lines) = Basic.Running c ->
  ((Basic.current_user (Basic.self c) = None
    /\ Basic.session_active (Basic.self c) = false)
   \/ (Basic.current_user (Basic.self c) = Some (admin_username h)
       /\ Basic.session_active (Basic.self c) = true))
  /\ (Basic.current_screen c <> Login ->
      Basic.session_active (Basic.self c) = true)
  /\ Basic.system_status (Basic.self c) = Basic.system_status Basic.init
  /\ Basic.active_workflows (Basic.self c) = Basic.active_workflows Basic.init
  /\ Basic.system_metrics (Basic.self c) = Basic.system_metrics Basic.init.
Proof.
  apply (basic_run_preserves
           (fun c =>
              ((Basic.current_user (Basic.self c) = None
                /\ Basic.session_active (Basic.self c) = false)
               \/ (Basic.current_user (Basic.self c) = Some (admin_username h)
                   /\ Basic.session_active (Basic.self c) = true))
              /\ (Basic.current_screen c <> Login ->
                  Basic.session_active (Basic.self c) = true)
              /\ Basic.system_status (Basic.self c)
                 = Basic.system_status Basic.init
              /\ Basic.active_workflows (Basic.self c)
                 = Basic.active_workflows Basic.init
              /\ Basic.system_metrics (Basic.self c)
                 = Basic.system_metrics Basic.init)).
  - intros c0 line c' (Huser & Hscreen & Hs & Hw & Hm) E.
    destruct (basic_step_cases c0 c' line E) as [Hself Hwhere].
    destruct Hself as [Hself | [Hself _]].
    + rewrite Hself. repeat split; try assumption.
      intros Hn. destruct Hwhere as [Hl | [Hlog | Hfrom]].
      * contradiction.
      * rewrite Hself in Hlog. rewrite Hlog. reflexivity.
      * exact (Hscreen Hfrom).
    + rewrite Hself. cbn [Basic.log_in Basic.current_user Basic.session_active
                            Basic.system_status Basic.active_workflows
                            Basic.system_metrics].
      repeat split; try assumption. right. split; reflexivity.
  - repeat split; try reflexivity.
    + left. split; reflexivity.
    + intros Hn. now destruct Hn.
Qed.

(** X4: a session, once open, is never closed: no run sets
    [session_active] back, and "esc" at the dashboard returns to the
    login form with the object as it was, the user still on record. *)
Theorem basic_session_never_closed :
  (forall (lines : list string) (c c' : Basic.config),
      Basic.session_active (Basic.self c) = true ->
      fst (Basic.run h c lines) = Basic.Running c' ->
      Basic.session_active (Basic.self c') = true)
  /\ (forall (c : Basic.config) (line : string),
      Basic.active c = Basic.DashboardCmd ->
      lower line = "esc" ->
      fst (Basic.step h c line)
      = Basic.Running
          {| Basic.self := Basic.self c; Basic.active := Basic.LoginUsername;
             Basic.callers := Basic.Dash204 :: Basic.callers c |}).
Proof.
  split.
  - intros lines.
    apply (basic_run_preserves
             (fun c => Basic.session_active (Basic.self c) = true)).
    intros c line c' Hopen E.
    destruct (basic_step_cases c c' line E) as [[Hself | [Hself _]] _];
      rewrite Hself; [exact Hopen | reflexivity].
  - intros c line Hp Hl. unfold Basic.step. rewrite Hp, Hl. reflexivity.
Qed.

(** X5: the screen changes of the basic front-end are Login to Login
    or Dashboard, Dashboard to Login, Dashboard or Help, and Help to
    Dashboard; in particular Help is entered from the Dashboard only
    and left for the Dashboard only. *)
Theorem basic_screen_graph (c c' : Basic.config) (line : string) :
  fst (Basic.step h c line) = Basic.Running c' ->
  basic_edge (Basic.current_screen c) (Basic.current_screen c') = true.
Proof.
  destruct c as [t p k]. unfold Basic.step, Basic.current_screen.
  cbn [Basic.active Basic.self Basic.callers].
  destruct p.
  - intros E; injection E as <-. reflexivity.
  - intros E; injection E as <-. reflexivity.
  - destruct (Basic.credentials_match h username password);
      intros E; injection E as <-; reflexivity.
  - destruct (String.eqb (lower line) "h").
    { intros E; injection E as <-. reflexivity. }
    destruct (String.eqb (lower line) "esc").
    { intros E; injection E as <-. reflexivity. }
    destruct (String.eqb (lower line) "quit" || String.eqb (lower line) "exit").
    { rewrite basic_raise_system_exit. discriminate. }
    intros E; injection E as <-. reflexivity.
  - intros E; injection E as <-. reflexivity.
Qed.

Lemma basic_raise_interrupt (k : list Basic.site) :
  In Basic.Run253 k ->
  Basic.raise KeyboardInterrupt k
  = (Basic.Exited 0, [Print (nl ++ nl ++ Basic.shutdown_message)]).
Proof.
  induction k as [|s k IH]; intros Hin.
  - destruct Hin.
  - destruct s; cbn [Basic.raise Basic.catches];
      try (apply IH; destruct Hin as [Hin | Hin];
           [discriminate Hin | exact Hin]).
    rewrite basic_raise_system_exit. reflexivity.
Qed.

(** X6: Ctrl-C at any read of a run from the start ends the basic
    front-end with the shutdown message and exit code 0: [run]'s handler
    is below every screen. *)
Theorem basic_interrupt_exits (lines : list string) (c : Basic.config) :
  fst (Basic.run h Basic.start lines) = Basic.Running c ->
  basic_interrupt c
  = (Basic.Exited 0, [Print (nl ++ nl ++ Basic.shutdown_message)]).
Proof.
  intros Hrun. unfold basic_interrupt. apply basic_raise_interrupt.
  revert Hrun.
  apply (basic_run_preserves (fun c => In Basic.Run253 (Basic.callers c))).
  - intros c0 line c' Hin E.
    destruct (basic_step_pushes h c0 c' line E) as [Hk | [s Hk]]; rewrite Hk.
    + exact Hin.
    + right. exact Hin.
  - left. reflexivity.
Qed.

(** X7: past the login every line costs a frame.  From the Dashboard or
    the Help screen, a run on lines none of which lowers to "esc",
    "quit" or "exit" stays on these two screens, leaves the object as
    it was and ends exactly as many frames deeper as it read lines. *)
Theorem basic_dashboard_depth (lines : list string) :
  Forall (fun line => str_in (lower line) ["esc"; "quit"; "exit"] = false)
    lines ->
  forall c : Basic.config,
    Basic.current_screen c <> Login ->
    exists c',
      fst (Basic.run h c lines) = Basic.Running c'
      /\ Basic.current_screen c' <> Login
      /\ Basic.self c' = Basic.self c
      /\ Basic.depth c' = (Basic.depth c + List.length lines)%nat.
Proof.
  induction 1 as [|line lines Hline _ IH]; intros c Hc.
  - exists c. repeat split; [exact Hc | unfold Basic.depth; simpl; lia].
  - rewrite !str_in_cons in Hline.
    apply orb_false_elim in Hline as [Ee Hline].
    apply orb_false_elim in Hline as [Eq Hline].
    apply orb_false_elim in Hline as [Ex _].
    assert (Hstep : exists s p,
               Basic.screen_of p <> Login
               /\ fst (Basic.step h c line)
                  = Basic.Running
                      {| Basic.self := Basic.self c; Basic.active := p;
                         Basic.callers := s :: Basic.callers c |}).
    { destruct c as [t p k]. unfold Basic.step, Basic.current_screen in *.
      cbn [Basic.active Basic.self Basic.callers] in *.
      destruct p; try (now destruct Hc).
      - rewrite Ee, Eq, Ex. cbn [orb].
        destruct (String.eqb (lower line) "h").
        + exists Basic.Dash200, Basic.HelpEnter.
          repeat split; discriminate.
        + exists Basic.Dash211, Basic.DashboardCmd.
          repeat split; discriminate.
      - exists Basic.Help248, Basic.DashboardCmd.
        repeat split; discriminate. }
    destruct Hstep as (s & p & Hp & Hstep).
    rewrite basic_run_cons, Hstep.
    destruct (IH {| Basic.self := Basic.self c; Basic.active := p;
                    Basic.callers := s :: Basic.callers c |} Hp)
      as (c' & Hrun & Hc' & Hself & Hdepth).
    exists c'. repeat split; try assumption.
    rewrite Hdepth. unfold Basic.depth. simpl. lia.
Qed.

End BasicRuns.

(** * Further properties of the advanced front-end *)

Section AdvancedRuns.
Context {py : PyStr} {rm : Rich}.
Variable h : Advanced.host.

Lemma advanced_run_cons (c : Advanced.config) (now : datetime)
  (line : string) (rest : list (datetime * string)) :
  fst (Advanced.run h c ((now, line) :: rest))
  = match fst (Advanced.step h now c line) with
    | Advanced.Running c' => fst (Advanced.run h c' rest)
    | stopped => stopped
    end.
Proof.
  simpl. destruct (Advanced.step h now c line) as [[c' | code | e] out]; simpl;
    try reflexivity.
  destruct (Advanced.run h c' rest). reflexivity.
Qed.

Lemma advanced_run_preserves (P : Advanced.config -> Prop) :
  (forall now c line c',
      P c -> fst (Advanced.step h now c line) = Advanced.Running c' -> P c') ->
  forall inputs c c',
    P c -> fst (Advanced.run h c inputs) = Advanced.Running c' -> P c'.
Proof.
  intros Hstep. induction inputs as [|[now line] inputs IH];
    intros c c' HP Hrun.
  - simpl in Hrun. injection Hrun as <-. exact HP.
  - rewrite advanced_run_cons in Hrun.
    destruct (fst (Advanced.step h now c line)) as [c1 | code | e] eqn:E;
      try discriminate Hrun.
    exact (IH c1 c' (Hstep now c line c1 HP E) Hrun).
Qed.


(** A return ends at the prompt of an enclosing dashboard, higher up the
    stack, or ends the process in the ordinary way. *)
Lemma advanced_resume_cases (t : Advanced.cli) (k : list Advanced.site) :
  (exists k',
      Advanced.resume t k
      = (Advanced.Running
           {| Advanced.self := t; Advanced.active := Advanced.DashboardCmd;
              Advanced.callers := k' |},
         [Ask Advanced.cmd_prompt])
      /\ (List.length k' < List.length k)%nat)
  \/ Advanced.resume t k = (Advanced.Exited 0, []).
Proof.
  induction k as [|s k IH].
  - right. reflexivity.
  - cbn [Advanced.resume]. destruct (Advanced.in_dashboard_loop s).
    + left. exists k. split; [reflexivity | simpl; lia].
    + destruct IH as [(k' & E & Hlen) | E].
      * left. exists k'. split; [exact E | simpl; lia].
      * right. exact E.
Qed.

(** What one step of the advanced front-end can do. *)
Lemma advanced_step_cases (now : datetime) (c c' : Advanced.config)
  (line : string) :
  fst (Advanced.step h now c line) = Advanced.Running c' ->
  Advanced.self c' = Advanced.self c
  /\ advanced_edge (Advanced.current_screen c) (Advanced.current_screen c')
     = true.
Proof.
  destruct c as [t p k].
  unfold Advanced.step, Advanced.current_screen, Advanced.call, Advanced.stay.
  cbn [Advanced.active Advanced.self Advanced.callers].
  destruct p;
    try (intros E; injection E as <-; split; reflexivity).
  - change (Advanced.load_global "os") with (Some (NameError "os")).
    cbv beta iota. rewrite advanced_raise_unhandled by reflexivity.
    discriminate.
  - repeat match goal with
           | |- context [if ?b then _ else _] =>
               destruct b;
               [try (intros E; injection E as <-; split; reflexivity)|]
           end;
      try (intros E; injection E as <-; split; reflexivity).
    all: unfold Advanced.raise_in_loop; cbn [Advanced.handles];
      rewrite advanced_raise_unhandled by reflexivity; discriminate.
  - destruct (Advanced.prompt_choose Advanced.choices "B" line) as [choice|].
    + destruct (String.eqb choice "B");
        [intros E; injection E as <-; split; reflexivity|].
      destruct (String.eqb choice "1");
        [intros E; injection E as <-; split; reflexivity|].
      destruct (advanced_resume_cases t k) as [(k' & E & _) | E];
        rewrite E; [|discriminate].
      intros E'; injection E' as <-. split; reflexivity.
    + intros E; injection E as <-. split; reflexivity.
Qed.


(** X9: no run of the advanced front-end changes a field of the object:
    no user is put on record, the session is not opened, and "Create new
    workflow" leaves the list of workflows as it was. *)
Theorem advanced_fields_never_change (inputs : list (datetime * string))
  (c c' : Advanced.config) :
  fst (Advanced.run h c inputs) = Advanced.Running c' ->
  Advanced.self c' = Advanced.self c.
Proof.
  apply (advanced_run_preserves
           (fun c0 => Advanced.self c0 = Advanced.self c)).
  - intros now c0 line c1 Hself E.
    rewrite <- Hself. exact (proj1 (advanced_step_cases now c0 c1 line E)).
  - reflexivity.
Qed.


(** X11: the screen changes of the advanced front-end.  From the Login
    screen a step leads to the Login screen only; Help, the workflow
    list, the node list, Monitoring, Security and Settings are left for
    the Dashboard only (the workflow list may also stay); every other
    change starts at the Dashboard. *)
Theorem advanced_screen_graph (now : datetime) (c c' : Advanced.config)
  (line : string) :
  fst (Advanced.step h now c line) = Advanced.Running c' ->
  advanced_edge (Advanced.current_screen c) (Advanced.current_screen c') = true.
Proof.
  intros E. exact (proj2 (advanced_step_cases now c c' line E)).
Qed.

Lemma advanced_raise_interrupt (t : Advanced.cli) (k : list Advanced.site) :
  In Advanced.Run372 k ->
  (exists k' out,
      Advanced.raise t KeyboardInterrupt k
      = (Advanced.Running
           {| Advanced.self := t; Advanced.active := Advanced.DashboardCmd;
              Advanced.callers := k' |}, out)
      /\ (List.length k' < List.length k)%nat)
  \/ exists out,
       Advanced.raise t KeyboardInterrupt k = (Advanced.Exited 0, out).
Proof.
  induction k as [|s k IH]; intros Hin.
  - destruct Hin.
  - cbn [Advanced.raise].
    destruct (Advanced.catches s KeyboardInterrupt) eqn:C.
    + destruct (Advanced.in_dashboard_loop s).
      * destruct (advanced_resume_cases t k) as [(k' & E & Hlen) | E];
          rewrite E.
        -- left. eexists. eexists. split; [reflexivity | simpl; lia].
        -- right. eexists. reflexivity.
      * rewrite advanced_raise_unhandled by reflexivity.
        right. eexists. reflexivity.
    + destruct Hin as [Hin | Hin]; [subst s; discriminate C|].
      destruct (IH Hin) as [(k' & out & E & Hlen) | (out & E)].
      * left. exists k', out. split; [exact E | simpl; lia].
      * right. exists out. exact E.
Qed.

(** X12: Ctrl-C at a read of the advanced front-end, with [run] at the
    bottom of the stack, does not kill the process with a traceback:
    either the loop of a dashboard that is on the stack is left and the
    next dashboard below it asks for a command, the object untouched and
    the stack shorter, or the process ends with exit code 0. *)
Theorem advanced_interrupt_is_handled (c : Advanced.config) :
  In Advanced.Run372 (Advanced.callers c) ->
  match fst (advanced_interrupt c) with
  | Advanced.Running c' =>
      Advanced.active c' = Advanced.DashboardCmd
      /\ Advanced.self c' = Advanced.self c
      /\ (Advanced.depth c' < Advanced.depth c)%nat
  | Advanced.Exited code => code = 0
  | Advanced.Aborted _ => False
  end.
Proof.
  intros Hin. unfold advanced_interrupt, Advanced.depth.
  assert (Hraise :
    match fst (Advanced.raise (Advanced.self c) KeyboardInterrupt
                 (Advanced.callers c)) with
    | Advanced.Running c' =>
        Advanced.active c' = Advanced.DashboardCmd
        /\ Advanced.self c' = Advanced.self c
        /\ (S (List.length (Advanced.callers c'))
            < S (List.length (Advanced.callers c)))%nat
    | Advanced.Exited code => code = 0
    | Advanced.Aborted _ => False
    end).
  { destruct (advanced_raise_interrupt (Advanced.self c) (Advanced.callers c) Hin)
      as [(k' & out & E & Hlen) | (out & E)]; rewrite E; cbn [fst].
    - repeat split. simpl. lia.
    - reflexivity. }
  destruct (Advanced.active c); try exact Hraise.
  unfold Advanced.raise_in_loop. cbn [Advanced.handles].
  destruct (advanced_resume_cases (Advanced.self c) (Advanced.callers c))
    as [(k' & E & Hlen) | E]; rewrite E; cbn [fst].
  - repeat split. simpl. lia.
  - reflexivity.
Qed.

End AdvancedRuns.

(** * Further properties of what is drawn *)

Lemma glyphs_nil (s : string) : glyphs s = [] -> s = EmptyString.
Proof.
  destruct s as [|c r]; [reflexivity|].
  destruct (glyphs_head c r) as (g & gs & E). rewrite E. discriminate.
Qed.

(** Code points do not straddle the seam of two well-formed strings. *)
Lemma glyphs_app (a b : string) :
  starts_with_continuation b = false ->
  glyphs (a ++ b) = (glyphs a ++ glyphs b)%list.
Proof.
  intros Hb. induction a as [|c r IH].
  - reflexivity.
  - cbn [append glyphs]. rewrite IH.
    destruct (glyphs r) as [|g gs] eqn:G.
    + cbn [app]. destruct b as [|d b'].
      * reflexivity.
      * destruct (glyphs_head d b') as (g' & gs' & E). rewrite E.
        cbn [starts_with_continuation]. simpl in Hb. rewrite Hb. reflexivity.
    + cbn [app]. destruct (starts_with_continuation g); reflexivity.
Qed.

Lemma py_len_app (a b : string) :
  starts_with_continuation b = false ->
  py_len (a ++ b) = (py_len a + py_len b)%nat.
Proof.
  intros Hb. unfold py_len. rewrite glyphs_app by exact Hb.
  apply length_app.
Qed.

Lemma spaces_start (n : nat) : starts_with_continuation (spaces n) = false.
Proof. destruct n; reflexivity. Qed.

Lemma py_len_spaces (n : nat) : py_len (spaces n) = n.
Proof.
  induction n as [|n IH]; [reflexivity|].
  change (spaces (S n)) with (" " ++ spaces n)%string.
  rewrite py_len_app by apply spaces_start. rewrite IH. reflexivity.
Qed.

Lemma py_len_fmt_left (w : nat) (s : string) :
  py_len (fmt_left w s) = Nat.max w (py_len s).
Proof.
  unfold fmt_left. rewrite py_len_app by apply spaces_start.
  rewrite py_len_spaces. lia.
Qed.

(** X13: the first row of the user box is filled up to the 63 columns of
    the box as long as the user on record has at most 39 code points;
    a longer name is not cut, and the row is as much wider than the box
    as the name is longer. *)
Theorem basic_user_row_width (h : Basic.host) (t : Basic.terminal) :
  starts_with_continuation (str_of_field (Basic.current_user t)) = false ->
  hd EmptyString (Basic.user_info h t) = user_line t
  /\ py_len (fmt_left 63 (user_line t))
     = Nat.max 63 (24 + py_len (str_of_field (Basic.current_user t))).
Proof.
  intros Hu. split; [reflexivity|].
  rewrite py_len_fmt_left. f_equal. unfold user_line.
  set (u := str_of_field (Basic.current_user t)) in *.
  assert (Htail : starts_with_continuation (u ++ "@citadel-corp") = false).
  { destruct u; [reflexivity | exact Hu]. }
  rewrite py_len_app by exact Htail.
  rewrite py_len_app by reflexivity.
  change (py_len "USER     : ") with 11%nat.
  change (py_len "@citadel-corp") with 13%nat. lia.
Qed.

Lemma basic_user_row_width_witness :
  py_len (fmt_left 63 (user_line (Basic.log_in Basic.init "admin")))
  = Nat.max 63 (24 + py_len "admin").
Proof.
  apply (proj2 (basic_user_row_width basic_host
                  (Basic.log_in Basic.init "admin") eq_refl)).
Defined.

(** X14: the table of the workflow screen has one row for each workflow
    of the object, in their order, and every row has as many cells as
    the table has columns, whatever the workflows hold. *)
Theorem workflow_table_is_rectangular (t : Advanced.cli)
  (columns : list column) (rows : list (list string)) :
  In (columns, rows) (tables (Advanced.workflows_view t)) ->
  map (fun row => hd EmptyString row) rows
  = map Advanced.wf_id (Advanced.active_workflows t)
  /\ Forall (fun row => List.length row = List.length columns) rows.
Proof.
  unfold Advanced.workflows_view, Advanced.show. cbn [tables flat_map app].
  intros [E | []]. injection E as <- <-. split.
  - rewrite map_map. reflexivity.
  - apply Forall_forall. intros row Hrow.
    apply in_map_iff in Hrow as (wf & <- & _). reflexivity.
Qed.

Lemma workflow_table_is_rectangular_witness :
  Forall (fun row => List.length row = 4%nat)
    (map Advanced.workflow_row
       (Advanced.active_workflows (Advanced.init "1A2B3C4D"))).
Proof.
  apply (proj2 (workflow_table_is_rectangular (Advanced.init "1A2B3C4D")
                  _ _ (or_introl eq_refl))).
Defined.

(** * Instances of the further properties *)

Lemma basic_login_decides_witness :
  fst (Basic.run basic_host (basic_at Basic.LoginUsername)
         ["admin"; "citadel"; "go"])
  = Basic.Running
      {| Basic.self := Basic.log_in Basic.init "admin";
         Basic.active := Basic.DashboardCmd;
         Basic.callers := Basic.Login120 :: Basic.callers Basic.start |}.
Proof.
  apply (proj1 (basic_login_decides basic_host Basic.init
                  (Basic.callers Basic.start) "admin" "citadel" "go")).
  split; reflexivity.
Defined.


Lemma basic_session_invariant_witness :
  Basic.current_user
    (Basic.self
       {| Basic.self := Basic.log_in Basic.init "admin";
          Basic.active := Basic.LoginUsername;
          Basic.callers :=
            [Basic.Dash204; Basic.Login120; Basic.Run253; Basic.Main265;
             Basic.Module269] |})
  = Some (admin_username basic_host).
Proof.
  assert (E : fst (Basic.run basic_host Basic.start
                     ["admin"; "citadel"; "go"; "esc"])
              = Basic.Running
                  {| Basic.self := Basic.log_in Basic.init "admin";
                     Basic.active := Basic.LoginUsername;
                     Basic.callers :=
                       [Basic.Dash204; Basic.Login120; Basic.Run253;
                        Basic.Main265; Basic.Module269] |})
    by (vm_compute; reflexivity).
  destruct (basic_session_invariant basic_host _ _ E)
    as [[[Hnone _] | [Hsome _]] _].
  - discriminate Hnone.
  - exact Hsome.
Defined.

Lemma basic_session_never_closed_witness :
  fst (Basic.step basic_host
         {| Basic.self := Basic.log_in Basic.init "admin";
            Basic.active := Basic.DashboardCmd;
            Basic.callers := Basic.callers Basic.start |} "Esc")
  = Basic.Running
      {| Basic.self := Basic.log_in Basic.init "admin";
         Basic.active := Basic.LoginUsername;
         Basic.callers := Basic.Dash204 :: Basic.callers Basic.start |}.
Proof.
  apply (proj2 (basic_session_never_closed basic_host)
           {| Basic.self := Basic.log_in Basic.init "admin";
              Basic.active := Basic.DashboardCmd;
              Basic.callers := Basic.callers Basic.start |} "Esc");
    reflexivity.
Defined.

Lemma basic_screen_graph_witness :
  basic_edge Dashboard Help = true.
Proof.
  apply (basic_screen_graph basic_host (basic_at Basic.DashboardCmd)
           {| Basic.self := Basic.init; Basic.active := Basic.HelpEnter;
              Basic.callers := Basic.Dash200 :: Basic.callers Basic.start |}
           "H").
  reflexivity.
Defined.

Lemma basic_interrupt_exits_witness :
  basic_interrupt
    {| Basic.self := Basic.init; Basic.active := Basic.LoginPassword "admin";
       Basic.callers := Basic.callers Basic.start |}
  = (Basic.Exited 0, [Print (nl ++ nl ++ Basic.shutdown_message)]).
Proof.
  apply (basic_interrupt_exits basic_host ["admin"]). reflexivity.
Defined.

Lemma basic_dashboard_depth_witness :
  exists c',
    fst (Basic.run basic_host (basic_at Basic.DashboardCmd) ["h"; "back"; "ls"])
    = Basic.Running c'
    /\ Basic.current_screen c' <> Login
    /\ Basic.self c' = Basic.init
    /\ Basic.depth c' = (4 + 3)%nat.
Proof.
  apply (basic_dashboard_depth basic_host ["h"; "back"; "ls"]).
  - repeat constructor.
  - discriminate.
Defined.


Lemma advanced_fields_never_change_witness :
  Advanced.self
    {| Advanced.self := Advanced.init "1A2B3C4D";
       Advanced.active := Advanced.WorkflowChoice;
       Advanced.callers :=
         Advanced.Wf311 :: Advanced.Dash219
         :: Advanced.callers (Advanced.start "1A2B3C4D") |}
  = Advanced.self (advanced_at Advanced.DashboardCmd).
Proof.
  apply (advanced_fields_never_change advanced_host
           [(noon, "workflow"); (noon, "1"); (noon_and_a_second, "ok")]).
  reflexivity.
Defined.


Lemma advanced_screen_graph_witness :
  advanced_edge Help Dashboard = true.
Proof.
  apply (advanced_screen_graph advanced_host noon
           (advanced_at Advanced.HelpEnter)
           {| Advanced.self := Advanced.init "1A2B3C4D";
              Advanced.active := Advanced.DashboardCmd;
              Advanced.callers :=
                Advanced.Help263
                :: Advanced.callers (Advanced.start "1A2B3C4D") |}
           "esc").
  reflexivity.
Defined.

Lemma advanced_interrupt_is_handled_witness :
  match fst (advanced_interrupt
               {| Advanced.self := Advanced.init "1A2B3C4D";
                  Advanced.active := Advanced.HelpEnter;
                  Advanced.callers :=
                    Advanced.Dash208 :: Advanced.Help263 :: Advanced.Dash208
                    :: Advanced.callers (Advanced.start "1A2B3C4D") |}) with
  | Advanced.Running c' =>
      Advanced.active c' = Advanced.DashboardCmd
      /\ Advanced.self c' = Advanced.init "1A2B3C4D"
      /\ (Advanced.depth c' < 7)%nat
  | Advanced.Exited code => code = 0
  | Advanced.Aborted _ => False
  end.
Proof.
  apply (advanced_interrupt_is_handled
           {| Advanced.self := Advanced.init "1A2B3C4D";
              Advanced.active := Advanced.HelpEnter;
              Advanced.callers :=
                Advanced.Dash208 :: Advanced.Help263 :: Advanced.Dash208
                :: Advanced.callers (Advanced.start "1A2B3C4D") |}).
  simpl. auto 10.
Defined.

(** * The way into the dashboard, and the cost of a visit *)

(** X15: the only way from the Login screen of the basic front-end to
    another screen is the last read of a login whose user name and
    password are those of the environment; it leads to the Dashboard
    and puts that user on record. *)
Theorem basic_dashboard_needs_login {py : PyStr} (h : Basic.host)
  (c c' : Basic.config) (line : string) :
  Basic.current_screen c = Login ->
  fst (Basic.step h c line) = Basic.Running c' ->
  Basic.current_screen c' <> Login ->
  exists username password,
    Basic.active c = Basic.LoginEnter username password
    /\ username = admin_username h
    /\ password = admin_password h
    /\ Basic.current_screen c' = Dashboard
    /\ Basic.current_user (Basic.self c') = Some username
    /\ Basic.session_active (Basic.self c') = true.
Proof.
  destruct c as [t p k]. unfold Basic.step, Basic.current_screen.
  cbn [Basic.active Basic.self Basic.callers].
  destruct p; cbn [Basic.screen_of]; intros Hc; try discriminate Hc.
  - intros E; injection E as <-. intros Hn. now destruct Hn.
  - intros E; injection E as <-. intros Hn. now destruct Hn.
  - destruct (Basic.credentials_match h username password) eqn:M;
      intros E; injection E as <-; intros Hn.
    + apply credentials_match_iff in M as [Hu Hp].
      exists username, password. repeat split; assumption.
    + now destruct Hn.
Qed.

Lemma basic_dashboard_needs_login_witness :
  exists username password,
    Basic.active (basic_at (Basic.LoginEnter "admin" "citadel"))
    = Basic.LoginEnter username password
    /\ username = admin_username basic_host
    /\ password = admin_password basic_host
    /\ Basic.current_screen
         {| Basic.self := Basic.log_in Basic.init "admin";
            Basic.active := Basic.DashboardCmd;
            Basic.callers := Basic.Login120 :: Basic.callers Basic.start |}
       = Dashboard
    /\ Basic.current_user
         (Basic.self
            {| Basic.self := Basic.log_in Basic.init "admin";
               Basic.active := Basic.DashboardCmd;
               Basic.callers := Basic.Login120 :: Basic.callers Basic.start |})
       = Some username
    /\ Basic.session_active
         (Basic.self
            {| Basic.self := Basic.log_in Basic.init "admin";
               Basic.active := Basic.DashboardCmd;
               Basic.callers := Basic.Login120 :: Basic.callers Basic.start |})
       = true.
Proof.
  apply (basic_dashboard_needs_login basic_host
           (basic_at (Basic.LoginEnter "admin" "citadel")) _ "go").
  - reflexivity.
  - reflexivity.
  - discriminate.
Defined.


